(** * A shallow embedding of [lib/reporters/verbose.js] (the verbose reporter).

    The reporter is a JavaScript class whose methods mutate [this] and write
    to [this.stream].  It is modelled as a state, writer and exception monad
    over the record [Reporter]: every method becomes a computation that reads
    and updates the reporter's fields, appends the chunks it passes to
    [stream.write] to an output list, and may throw (a JavaScript
    [TypeError]).  Library helpers the module imports ([chalk] colours,
    [figures], [path.relative], [pretty-ms], [prefix-title], [code-excerpt],
    [format-serialized-error], [improper-usage-messages],
    [trim-off-newlines]) are collected in the record [Collab] and left
    abstract; [plur] and [indent-string] are small and are embedded. *)

From Stdlib Require Import String Ascii List NArith Bool Lia.
Import ListNotations.

Local Open Scope N_scope.
Local Open Scope string_scope.
Local Open Scope list_scope.

(** ** Strings *)

Definition nl : string := String (ascii_of_nat 10) EmptyString.

Definition dq : string := String (ascii_of_nat 34) EmptyString.

(** A JavaScript template literal: the concatenation of its pieces. *)
Definition cat (l : list string) : string := String.concat "" l.

(** [`${n}`] for a non-negative integer [n]. *)
Fixpoint digits (fuel : nat) (n : N) (acc : string) : string :=
  match fuel with
  | O => acc
  | S f =>
      let acc' := String (ascii_of_N (48 + N.modulo n 10)) acc in
      if N.ltb n 10 then acc' else digits f (N.div n 10) acc'
  end.

Definition show_N (n : N) : string := digits (S (N.size_nat n)) n EmptyString.

(** [plur(word, plural, count)]: the singular form exactly when
    [Math.abs(count) === 1] (counts are non-negative here). *)
Definition plur3 (word plural : string) (count : N) : string :=
  if N.eqb count 1 then word else plural.

(** [plur(word, count)]: the plural is derived from the word; every word the
    reporter passes ('test', 'hook', 'known failure', 'rejection',
    'exception', 'failure') takes a plain "s". *)
Definition plur (word : string) (count : N) : string :=
  plur3 word (cat [word; "s"]) count.

(** [indent-string]: [string.replace(/^(?!\s*$)/mg, ' '.repeat(count))].
    Strings are their UTF-8 bytes.  With the [m] flag, [^] matches at the
    start and after each line terminator (LF, CR, U+2028, U+2029), and
    [(?!\s*$)] fails exactly on lines made only of [\s] characters; the
    text itself is kept, terminators included.  Multi-byte characters are
    recognised by their UTF-8 sequences, which cannot start inside another
    character's encoding. *)
Definition byte (a : ascii) : nat := nat_of_ascii a.

(** U+2028 and U+2029: E2 80 A8, E2 80 A9. *)
Definition is_sep3 (a b d : nat) : bool :=
  Nat.eqb a 226 && Nat.eqb b 128 && (Nat.eqb d 168 || Nat.eqb d 169).

(** The one-byte characters of [\s]: TAB, LF, VT, FF, CR, space. *)
Definition is_ws1 (a : nat) : bool :=
  Nat.eqb a 9 || Nat.eqb a 10 || Nat.eqb a 11 || Nat.eqb a 12 || Nat.eqb a 13 ||
  Nat.eqb a 32.

(** The three-byte characters of [\s]: U+1680, U+2000 to U+200A, U+2028,
    U+2029, U+202F, U+205F, U+3000, U+FEFF. *)
Definition is_ws3 (a b d : nat) : bool :=
  (Nat.eqb a 225 && Nat.eqb b 154 && Nat.eqb d 128) ||
  (Nat.eqb a 226 && Nat.eqb b 128 &&
     ((Nat.leb 128 d && Nat.leb d 138) || Nat.eqb d 168 || Nat.eqb d 169 ||
      Nat.eqb d 175)) ||
  (Nat.eqb a 226 && Nat.eqb b 129 && Nat.eqb d 159) ||
  (Nat.eqb a 227 && Nat.eqb b 128 && Nat.eqb d 128) ||
  (Nat.eqb a 239 && Nat.eqb b 187 && Nat.eqb d 191).

(** Whether a string is made only of [\s] characters (U+00A0 is C2 A0). *)
Fixpoint blank_line (s : string) : bool :=
  match s with
  | EmptyString => true
  | String a r =>
      if is_ws1 (byte a) then blank_line r
      else match r with
           | EmptyString => false
           | String b r1 =>
               if Nat.eqb (byte a) 194 && Nat.eqb (byte b) 160 then blank_line r1
               else match r1 with
                    | EmptyString => false
                    | String d r2 =>
                        if is_ws3 (byte a) (byte b) (byte d) then blank_line r2
                        else false
                    end
           end
  end.

(** Adding a character at the start of the first line. *)
Definition push_char (a : ascii) (ls : list (string * string))
  : list (string * string) :=
  match ls with
  | [] => [(String a EmptyString, EmptyString)]
  | (l, t) :: rest => (String a l, t) :: rest
  end.

(** The lines of a string, each with the terminator that ends it (the
    empty string for the last line). *)
Fixpoint lines_of (s : string) : list (string * string) :=
  match s with
  | EmptyString => [(EmptyString, EmptyString)]
  | String a r =>
      if Nat.eqb (byte a) 10 || Nat.eqb (byte a) 13 then
        (EmptyString, String a EmptyString) :: lines_of r
      else match r with
           | String b (String d r2) =>
               if is_sep3 (byte a) (byte b) (byte d) then
                 (EmptyString, String a (String b (String d EmptyString))) :: lines_of r2
               else push_char a (lines_of r)
           | _ => push_char a (lines_of r)
           end
  end.

(** [s.includes('\n')] *)
Fixpoint includes_nl (s : string) : bool :=
  match s with
  | EmptyString => false
  | String c r => Ascii.eqb c (ascii_of_nat 10) || includes_nl r
  end.

Fixpoint spaces (n : nat) : string :=
  match n with O => EmptyString | S k => String " " (spaces k) end.

Definition indent_line (count : nat) (p : string * string) : string :=
  let '(l, t) := p in cat [if blank_line l then l else cat [spaces count; l]; t].

Definition indentString (s : string) (count : nat) : string :=
  String.concat "" (map (indent_line count) (lines_of s)).

(** ** Data model *)

(** Per-file entry of [stats.byFile]. *)
Record FileStats := mkFileStats {
  fs_declaredTests : N;
  fs_remainingTests : N
}.

(** The stats snapshot carried by a [stats] event. *)
Record Stats := mkStats {
  declaredTests : N;
  failedHooks : N;
  failedTests : N;
  passedTests : N;
  passedKnownFailingTests : N;
  skippedTests : N;
  todoTests : N;
  unhandledRejections : N;
  uncaughtExceptions : N;
  remainingTests : N;
  files : N;
  finishedWorkers : N;
  selectedTests : N;
  byFile : list (string * FileStats)
}.

(** [stats.byFile.get(file)] ([undefined] when absent). *)
Fixpoint byFile_get (m : list (string * FileStats)) (k : string)
  : option FileStats :=
  match m with
  | [] => None
  | (k', v) :: r => if String.eqb k k' then Some v else byFile_get r k
  end.

Record Source := mkSource { src_file : string; src_line : N }.

(** A serialized error.  A missing [stack] or [message] is the empty string
    (both are falsy in the tests the code makes). *)
Record SerializedError := mkErr {
  err_summary : string;
  err_stack : string;
  err_message : string;
  err_source : option Source;
  err_avaAssertionError : bool;
  err_nonErrorObject : bool;
  err_formatted : string
}.

(** An event object.  [ev_id] is the object's identity (the code compares
    events with [!==]); [type] is the tag the code switches on, any string;
    the other fields are those the handled types read.  An absent
    [testFile] is the empty string, falsy like [undefined]; an absent
    [nonZeroExitCode] is 0.  The record describes well-formed payloads:
    every object the code dereferences ([evt.err], [evt.stats.byFile]) is
    present, so the model does not cover the [TypeError]s a payload
    lacking one of them raises. *)
Record Event := mkEvent {
  ev_id : N;
  type : string;
  testFile : string;
  title : string;
  err : SerializedError;
  logs : list string;
  knownFailing : bool;
  duration : N;
  skip : bool;
  todo : bool;
  stats_of : Stats;
  period : N;
  nonZeroExitCode : N;
  signal : string;
  forcedExit : bool;
  chunk : string
}.

(** The fields of a [VerboseReporter] instance.  [prefixTitle] is [None] for
    the identity prefixer of [reset] and [Some filePathPrefix] for the one
    [startRun] installs; [removePreviousListener] is [Some e] when the
    instance holds the unsubscribe handle of its listener on emitter [e].
    [filesWithMissingAvaImports] is the [Set], as a duplicate-free list in
    insertion order. *)
Record Reporter := mkReporter {
  watching : bool;
  columns : option N;
  failFastEnabled : bool;
  failures : list Event;
  filesWithMissingAvaImports : list string;
  knownFailures : list Event;
  lastLineIsEmpty : bool;
  matching : bool;
  prefixTitle : option string;
  previousFailures : N;
  removePreviousListener : option N;
  stats : option Stats
}.

(** The imported helpers.  [c_time] is the clock reading of one endRun
    call: a statement about one [Collab] is about calls made at the same
    wall-clock second. *)
Record Collab := mkCollab {
  c_error : string -> string;
  c_skip : string -> string;
  c_todo : string -> string;
  c_pass : string -> string;
  c_duration : string -> string;
  c_title : string -> string;
  c_stack : string -> string;
  c_errorStack : string -> string;
  c_errorSource : string -> string;
  c_information : string -> string;
  c_log : string -> string;
  c_grayDim : string -> string;
  c_cross : string;
  c_tick : string;
  c_info : string;
  c_rule : N -> string;                   (* '─'.repeat(n) *)
  c_relative : string -> string;          (* path.relative('.', f) *)
  c_prettyMs : N -> string;
  c_prefixTitle : string -> string -> string -> string;
  c_codeExcerpt : Source -> option N -> option string;
  c_formatSerializedError : SerializedError -> bool * option string;
  c_improperUsage : SerializedError -> option string;
  c_trimOffNewlines : string -> string;
  c_time : string   (* new Date().toLocaleTimeString(...), read at the endRun call *)
}.

(** ** The reporter monad

    A method call runs on the reporter's fields and returns them updated,
    together with the chunks written to the stream.  [Exc] is a thrown
    exception: the fields mutated and the chunks written before the throw
    stay (the [finally] of [whileCorked] only uncorks the stream). *)
Inductive outcome (A : Type) : Type :=
| Ret (a : A) (st : Reporter) (out : list string)
| Exc (st : Reporter) (out : list string).
Arguments Ret {A} a st out.
Arguments Exc {A} st out.

Definition M (A : Type) : Type := Reporter -> outcome A.

Definition ret {A} (a : A) : M A := fun st => Ret a st [].

Definition bind {A B} (m : M A) (k : A -> M B) : M B :=
  fun st =>
    match m st with
    | Ret a st1 o1 =>
        match k a st1 with
        | Ret b st2 o2 => Ret b st2 (o1 ++ o2)
        | Exc st2 o2 => Exc st2 (o1 ++ o2)
        end
    | Exc st1 o1 => Exc st1 o1
    end.

Notation "x <- m ;; k" := (bind m (fun x => k))
  (at level 61, m at next level, right associativity).
Notation "m ;; k" := (bind m (fun _ => k))
  (at level 61, right associativity).

Definition get : M Reporter := fun st => Ret st st [].
Definition modify (f : Reporter -> Reporter) : M unit :=
  fun st => Ret tt (f st) [].
Definition throw {A} : M A := fun st => Exc st [].

(** [this.stream.write(s)] *)
Definition write (s : string) : M unit := fun st => Ret tt st [s].

Fixpoint for_each {A} (l : list A) (f : A -> M unit) : M unit :=
  match l with
  | [] => ret tt
  | x :: r => f x ;; for_each r f
  end.

(** Field updates. *)
Definition set_failures (v : list Event) (r : Reporter) : Reporter :=
  mkReporter (watching r) (columns r) (failFastEnabled r) v
    (filesWithMissingAvaImports r) (knownFailures r) (lastLineIsEmpty r)
    (matching r) (prefixTitle r) (previousFailures r)
    (removePreviousListener r) (stats r).

Definition set_filesWithMissingAvaImports (v : list string) (r : Reporter)
  : Reporter :=
  mkReporter (watching r) (columns r) (failFastEnabled r) (failures r)
    v (knownFailures r) (lastLineIsEmpty r)
    (matching r) (prefixTitle r) (previousFailures r)
    (removePreviousListener r) (stats r).

Definition set_knownFailures (v : list Event) (r : Reporter) : Reporter :=
  mkReporter (watching r) (columns r) (failFastEnabled r) (failures r)
    (filesWithMissingAvaImports r) v (lastLineIsEmpty r)
    (matching r) (prefixTitle r) (previousFailures r)
    (removePreviousListener r) (stats r).

Definition set_lastLineIsEmpty (v : bool) (r : Reporter) : Reporter :=
  mkReporter (watching r) (columns r) (failFastEnabled r) (failures r)
    (filesWithMissingAvaImports r) (knownFailures r) v
    (matching r) (prefixTitle r) (previousFailures r)
    (removePreviousListener r) (stats r).

Definition set_stats (v : option Stats) (r : Reporter) : Reporter :=
  mkReporter (watching r) (columns r) (failFastEnabled r) (failures r)
    (filesWithMissingAvaImports r) (knownFailures r) (lastLineIsEmpty r)
    (matching r) (prefixTitle r) (previousFailures r)
    (removePreviousListener r) v.

(** [set.add(x)] on a [Set] of strings kept as a duplicate-free list in
    insertion order: adding a member changes nothing. *)
Definition set_add (x : string) (l : list string) : list string :=
  if existsb (String.eqb x) l then l else l ++ [x].

(** ** The methods *)

Section Reporter.

Variable c : Collab.

(** [this.prefixTitle(testFile, title)] *)
Definition applyPrefix (r : Reporter) (file t : string) : string :=
  match prefixTitle r with
  | None => t
  | Some filePathPrefix => c_prefixTitle c filePathPrefix file t
  end.

(** [writeLine(str)] *)
Definition writeLine (s : string) : M unit :=
  write (cat [s; nl]) ;;
  modify (set_lastLineIsEmpty (String.eqb s "")).

(** [ensureEmptyLine()] *)
Definition ensureEmptyLine : M unit :=
  r <- get ;;
  if lastLineIsEmpty r then ret tt else writeLine "".

(** [writeErr(evt)] *)
Definition writeErr (evt : Event) : M unit :=
  r <- get ;;
  let e := err evt in
  (match err_source e with
   | Some s =>
       writeLine (cat ["  "; c_errorSource c (cat [src_file s; ":"; show_N (src_line s)])]) ;;
       match c_codeExcerpt c s (columns r) with
       | Some excerpt => writeLine "" ;; writeLine (indentString excerpt 2)
       | None => ret tt
       end
   | None => ret tt
   end) ;;
  (if err_avaAssertionError e then
     let '(printMessage, formatted) := c_formatSerializedError c e in
     (if printMessage then
        writeLine "" ;; writeLine (indentString (err_message e) 2)
      else ret tt) ;;
     (match formatted with
      | Some f => writeLine "" ;; writeLine (indentString f 2)
      | None => ret tt
      end) ;;
     (match c_improperUsage c e with
      | Some message => writeLine "" ;; writeLine (indentString message 2)
      | None => ret tt
      end)
   else if err_nonErrorObject e then
     writeLine (indentString (c_trimOffNewlines c (err_formatted e)) 2)
   else
     writeLine "" ;; writeLine (indentString (err_message e) 2)) ;;
  (if String.eqb (err_stack e) "" then ret tt
   else if negb (includes_nl (err_stack e)) then ret tt
   else writeLine "" ;; writeLine (indentString (c_errorStack c (err_stack e)) 2)).

(** [logLines.replace(/^ {6}/, `    ${colors.information(figures.info)} `)]:
    the pattern has no [m] flag, so only the start of the string counts. *)
Definition replaceLeadingIndent (s : string) : string :=
  if String.prefix "      " s
  then cat ["    "; c_information c (c_info c); " "; substring 6 (String.length s - 6) s]
  else s.

(** [writeLogs(evt)] *)
Definition writeLogs (evt : Event) : M unit :=
  for_each (logs evt) (fun log =>
    writeLine (replaceLeadingIndent (indentString (c_log c log) 6))).

(** The duration threshold of [writeTestSummary]. *)
Definition threshold : N := 100.

(** [writeTestSummary(evt)] *)
Definition writeTestSummary (evt : Event) : M unit :=
  r <- get ;;
  (if String.eqb (type evt) "hook-failed" || String.eqb (type evt) "test-failed" then
     writeLine (cat ["  "; c_error c (c_cross c); " ";
                     applyPrefix r (testFile evt) (title evt); " ";
                     c_error c (err_message (err evt))])
   else if knownFailing evt then
     writeLine (cat ["  "; c_error c (c_tick c); " ";
                     c_error c (applyPrefix r (testFile evt) (title evt))])
   else
     let dur := if N.ltb threshold (duration evt)
                then c_duration c (cat [" ("; c_prettyMs c (duration evt); ")"])
                else "" in
     writeLine (cat ["  "; c_pass c (c_tick c); " ";
                     applyPrefix r (testFile evt) (title evt); dur])) ;;
  writeLogs evt.

(** [writeFailure(evt)] *)
Definition writeFailure (evt : Event) : M unit :=
  r <- get ;;
  writeLine (cat ["  "; c_title c (applyPrefix r (testFile evt) (title evt))]) ;;
  writeLogs evt ;;
  writeLine "" ;;
  writeErr evt.

(** [const fileStats = this.stats && evt.testFile ?
       this.stats.byFile.get(evt.testFile) : null] *)
Definition fileStatsOf (r : Reporter) (evt : Event) : option FileStats :=
  match stats r with
  | Some s => if String.eqb (testFile evt) "" then None
              else byFile_get (byFile s) (testFile evt)
  | None => None
  end.

(** [consumeStateChange(evt)] *)
Definition consumeStateChange (evt : Event) : M unit :=
  r <- get ;;
  let fileStats := fileStatsOf r evt in
  let t := type evt in
  if String.eqb t "declared-test" then ret tt
  else if String.eqb t "hook-failed" then
    modify (fun r => set_failures (failures r ++ [evt]) r) ;;
    writeTestSummary evt
  else if String.eqb t "internal-error" then
    (if String.eqb (testFile evt) "" then
       writeLine (c_error c (cat ["  "; c_cross c; " Internal error"]))
     else
       writeLine (c_error c (cat ["  "; c_cross c; " Internal error when running ";
                                  c_relative c (testFile evt)]))) ;;
    writeLine (indentString (c_stack c (err_summary (err evt))) 2) ;;
    writeLine (indentString (c_errorStack c (err_stack (err evt))) 2) ;;
    writeLine (cat [nl; nl])
  else if String.eqb t "missing-ava-import" then
    modify (fun r => set_filesWithMissingAvaImports
                       (set_add (testFile evt) (filesWithMissingAvaImports r)) r) ;;
    writeLine (c_error c (cat ["  "; c_cross c; " No tests found in ";
                               c_relative c (testFile evt);
                               ", make sure to import "; dq; "ava"; dq;
                               " at the top of your test file"]))
  else if String.eqb t "selected-test" then
    (if skip evt then
       writeLine (cat ["  "; c_skip c (cat ["- "; applyPrefix r (testFile evt) (title evt)])])
     else if todo evt then
       writeLine (cat ["  "; c_todo c (cat ["- "; applyPrefix r (testFile evt) (title evt)])])
     else ret tt)
  else if String.eqb t "stats" then
    modify (set_stats (Some (stats_of evt)))
  else if String.eqb t "test-failed" then
    modify (fun r => set_failures (failures r ++ [evt]) r) ;;
    writeTestSummary evt
  else if String.eqb t "test-passed" then
    (if knownFailing evt
     then modify (fun r => set_knownFailures (knownFailures r ++ [evt]) r)
     else ret tt) ;;
    writeTestSummary evt
  else if String.eqb t "timeout" then
    writeLine (c_error c (cat ["  "; c_cross c;
      " Exited because no new tests completed within the last ";
      show_N (period evt); "ms of inactivity"]))
  else if String.eqb t "uncaught-exception" then
    ensureEmptyLine ;;
    writeLine (cat ["  "; c_title c (cat ["Uncaught exception in "; c_relative c (testFile evt)])]) ;;
    writeLine "" ;;
    writeErr evt ;;
    writeLine ""
  else if String.eqb t "unhandled-rejection" then
    ensureEmptyLine ;;
    writeLine (cat ["  "; c_title c (cat ["Unhandled rejection in "; c_relative c (testFile evt)])]) ;;
    writeLine "" ;;
    writeErr evt ;;
    writeLine ""
  else if String.eqb t "worker-failed" then
    (if existsb (String.eqb (testFile evt)) (filesWithMissingAvaImports r) then ret tt
     else if negb (N.eqb (nonZeroExitCode evt) 0) then
       writeLine (c_error c (cat ["  "; c_cross c; " "; c_relative c (testFile evt);
         " exited with a non-zero exit code: "; show_N (nonZeroExitCode evt)]))
     else
       writeLine (c_error c (cat ["  "; c_cross c; " "; c_relative c (testFile evt);
         " exited due to "; signal evt])))
  else if String.eqb t "worker-finished" then
    (if negb (forcedExit evt)
        && negb (existsb (String.eqb (testFile evt)) (filesWithMissingAvaImports r)) then
       match fileStats with
       | None => throw   (* TypeError: fileStats is null or undefined *)
       | Some fs =>
           if N.eqb (fs_declaredTests fs) 0 then
             writeLine (c_error c (cat ["  "; c_cross c; " No tests found in ";
                                        c_relative c (testFile evt)]))
           else if negb (failFastEnabled r) && N.ltb 0 (fs_remainingTests fs) then
             writeLine (c_error c (cat ["  "; c_cross c; " ";
               show_N (fs_remainingTests fs); " "; plur "test" (fs_remainingTests fs);
               " remaining in "; c_relative c (testFile evt)]))
           else ret tt
       end
     else ret tt)
  else if String.eqb t "worker-stderr" || String.eqb t "worker-stdout" then
    write (chunk evt)
  else ret tt.

(** The summary count lines of [endRun], with [firstLinePostfix] threaded
    through the three lines that may carry it. *)
Definition writeCountLines (r : Reporter) (s : Stats) : M unit :=
  let p0 := if watching r then cat [" "; c_grayDim c (cat ["["; c_time c; "]"])] else "" in
  (if N.ltb 0 (failedHooks s) then
     writeLine (cat ["  "; c_error c (cat [show_N (failedHooks s); " ";
                     plur "hook" (failedHooks s); " failed"]); p0])
   else ret tt) ;;
  let p1 := if N.ltb 0 (failedHooks s) then "" else p0 in
  (if N.ltb 0 (failedTests s) then
     writeLine (cat ["  "; c_error c (cat [show_N (failedTests s); " ";
                     plur "test" (failedTests s); " failed"]); p1])
   else ret tt) ;;
  let p2 := if N.ltb 0 (failedTests s) then "" else p1 in
  (if N.eqb (failedHooks s) 0 && N.eqb (failedTests s) 0 && N.ltb 0 (passedTests s) then
     writeLine (cat ["  "; c_pass c (cat [show_N (passedTests s); " ";
                     plur "test" (passedTests s); " passed"]); p2])
   else ret tt) ;;
  (if N.ltb 0 (passedKnownFailingTests s) then
     writeLine (cat ["  "; c_error c (cat [show_N (passedKnownFailingTests s); " ";
                     plur "known failure" (passedKnownFailingTests s)])])
   else ret tt) ;;
  (if N.ltb 0 (skippedTests s) then
     writeLine (cat ["  "; c_skip c (cat [show_N (skippedTests s); " ";
                     plur "test" (skippedTests s); " skipped"])])
   else ret tt) ;;
  (if N.ltb 0 (todoTests s) then
     writeLine (cat ["  "; c_todo c (cat [show_N (todoTests s); " ";
                     plur "test" (todoTests s); " todo"])])
   else ret tt) ;;
  (if N.ltb 0 (unhandledRejections s) then
     writeLine (cat ["  "; c_error c (cat [show_N (unhandledRejections s); " unhandled ";
                     plur "rejection" (unhandledRejections s)])])
   else ret tt) ;;
  (if N.ltb 0 (uncaughtExceptions s) then
     writeLine (cat ["  "; c_error c (cat [show_N (uncaughtExceptions s); " uncaught ";
                     plur "exception" (uncaughtExceptions s)])])
   else ret tt) ;;
  (if N.ltb 0 (previousFailures r) then
     writeLine (cat ["  "; c_error c (cat [show_N (previousFailures r); " previous ";
                     plur "failure" (previousFailures r);
                     " in test files that were not rerun"])])
   else ret tt).

(** The known-failures list of [endRun]. *)
Definition writeKnownFailures (r : Reporter) (s : Stats) : M unit :=
  if N.ltb 0 (passedKnownFailingTests s) then
    writeLine "" ;;
    for_each (knownFailures r) (fun evt =>
      writeLine (cat ["  "; c_error c (applyPrefix r (testFile evt) (title evt))]))
  else ret tt.

(** [shouldWriteFailFastDisclaimer] *)
Definition shouldWriteFailFastDisclaimer (r : Reporter) (s : Stats) : bool :=
  failFastEnabled r && (N.ltb 0 (remainingTests s) || N.ltb (finishedWorkers s) (files s)).

(** The loop over [this.failures]; [evt !== lastFailure] compares object
    identities. *)
Definition writeFailureBlocks (dis : bool) (lastFailure : Event) (l : list Event)
  : M unit :=
  for_each l (fun evt =>
    writeFailure evt ;;
    if negb (N.eqb (ev_id evt) (ev_id lastFailure)) || dis then
      writeLine "" ;; writeLine "" ;; writeLine ""
    else ret tt).

Definition writeFailures (dis : bool) (fs : list Event) : M unit :=
  match fs with
  | [] => ret tt
  | e :: _ =>
      writeLine "" ;;
      writeFailureBlocks dis (last fs e) fs
  end.

(** The [remaining] text of the fail-fast disclaimer. *)
Definition failFastRemaining (s : Stats) : string :=
  let skippedFileCount := files s - finishedWorkers s in
  cat [ (if N.ltb 0 (remainingTests s) then
           cat ["At least "; show_N (remainingTests s); " ";
                plur3 "test was" "tests were" (remainingTests s); " skipped";
                if N.ltb (finishedWorkers s) (files s) then ", as well as " else ""]
         else "");
        (if N.ltb (finishedWorkers s) (files s) then
           cat [show_N skippedFileCount; " ";
                plur3 "test file" "test files" skippedFileCount;
                if N.eqb (remainingTests s) 0
                then cat [" "; plur3 "was" "were" skippedFileCount; " skipped"]
                else ""]
         else "") ].

Definition failFastDisclaimerLine (s : Stats) : string :=
  cat ["  "; c_information c (cat ["`--fail-fast` is on. "; failFastRemaining s; "."])].

(** [endRun()] *)
Definition endRun : M unit :=
  r <- get ;;
  match stats r with
  | None =>
      writeLine (c_error c (cat ["  "; c_cross c; " Couldn't find any files to test"])) ;;
      writeLine ""
  | Some s =>
      if matching r && N.eqb (selectedTests s) 0 then
        writeLine (c_error c (cat ["  "; c_cross c; " Couldn't find any matching tests"])) ;;
        writeLine ""
      else
        writeLine "" ;;
        writeCountLines r s ;;
        writeKnownFailures r s ;;
        let dis := shouldWriteFailFastDisclaimer r s in
        writeFailures dis (failures r) ;;
        (if dis then writeLine (failFastDisclaimerLine s) else ret tt) ;;
        writeLine ""
  end.

End Reporter.

(** ** Runs, listeners and the event source

    [plan] of [startRun]; [p_status] names the emitter [plan.status]. *)
Record Plan := mkPlan {
  p_files : list string;
  p_failFastEnabled : bool;
  p_matching : bool;
  p_previousFailures : N;
  p_filePathPrefix : string;
  p_runVector : N;
  p_status : N
}.

(** The reporter together with the listeners registered on the emitters:
    one entry [e] per [plan.status.on('stateChange', ...)] registration on
    emitter [e] that has not been removed. *)
Record World := mkWorld { rep : Reporter; subs : list N }.

(** Removing one registration (the unsubscribe function returned by [on]). *)
Fixpoint remove_one (e : N) (l : list N) : list N :=
  match l with
  | [] => []
  | x :: r => if N.eqb x e then r else x :: remove_one e r
  end.

(** [reset()]: the fields of the reset record, whatever they were before. *)
Definition reset_fields (r : Reporter) : Reporter :=
  mkReporter (watching r) (columns r) false [] [] [] false false None 0 None None.

Definition reset (w : World) : World :=
  let subs' := match removePreviousListener (rep w) with
               | Some e => remove_one e (subs w)
               | None => subs w
               end in
  mkWorld (reset_fields (rep w)) subs'.

(** [new VerboseReporter({stream, watching})] *)
Definition construct (watching : bool) (columns : option N) : World :=
  reset (mkWorld (mkReporter watching columns false [] [] [] false false None 0 None None) []).

(** Running a method: a thrown exception leaves what was done before it. *)
Definition exec {A} (m : M A) (r : Reporter) : Reporter * list string :=
  match m r with
  | Ret _ r' o => (r', o)
  | Exc r' o => (r', o)
  end.

Section Runs.

Variable c : Collab.

(** [startRun(plan)] *)
Definition startRun (w : World) (plan : Plan) : World * list string :=
  let w1 := reset w in
  let r1 := rep w1 in
  let prefix := if watching r1 || Nat.ltb 1 (List.length (p_files plan))
                then Some (p_filePathPrefix plan) else None in
  let r2 := mkReporter (watching r1) (columns r1) (p_failFastEnabled plan)
              (failures r1) (filesWithMissingAvaImports r1) (knownFailures r1)
              (lastLineIsEmpty r1) (p_matching plan) prefix
              (p_previousFailures plan) (Some (p_status plan)) (stats r1) in
  let subs2 := p_status plan :: subs w1 in
  let '(r3, out) :=
    exec ((if watching r2 && N.ltb 1 (p_runVector plan) then
             writeLine (c_grayDim c (c_rule c (match columns r2 with
                                                | Some n => if N.eqb n 0 then 80 else n
                                                | None => 80 end)))
           else ret tt) ;;
          writeLine "") r2 in
  (mkWorld r3 subs2, out).

(** [emitter.emit('stateChange', evt)]: every registered listener on the
    emitter calls [consumeStateChange(evt)]. *)
Definition emit (w : World) (e : N) (evt : Event) : World * list string :=
  let '(r, out) :=
    fold_left (fun acc x =>
                 let '(r, o) := acc in
                 if N.eqb x e then
                   let '(r', o') := exec (consumeStateChange c evt) r in (r', o ++ o')
                 else acc)
              (subs w) (rep w, []) in
  (mkWorld r (subs w), out).

Inductive Action :=
| StartRun (plan : Plan)
| Emit (emitter : N) (evt : Event)
| EndRun.

Definition step (w : World) (a : Action) : World * list string :=
  match a with
  | StartRun plan => startRun w plan
  | Emit e evt => emit w e evt
  | EndRun => let '(r, o) := exec (endRun c) (rep w) in (mkWorld r (subs w), o)
  end.

Fixpoint run (w : World) (acts : list Action) : World * list string :=
  match acts with
  | [] => (w, [])
  | a :: r =>
      let '(w1, o1) := step w a in
      let '(w2, o2) := run w1 r in
      (w2, o1 ++ o2)
  end.

End Runs.

(** ** A concrete instance of the helpers

    Colour support off ([chalk] returns its argument), the [figures] of a
    Unicode terminal, paths already relative. *)
Fixpoint repeat_str (s : string) (n : nat) : string :=
  match n with O => "" | S k => cat [s; repeat_str s k] end.

Definition plain : Collab :=
  mkCollab id id id id id id id id id id id id
    "✖" "✔" "ℹ"
    (fun n => repeat_str "─" (N.to_nat n))
    id
    (fun n => cat [show_N n; "ms"])
    (fun prefix file t => cat [prefix; file; " › "; t])
    (fun _ _ => None)
    (fun _ => (true, None))
    (fun _ => None)
    id
    "12:00:00".

(** Building events and stats for the examples. *)
Definition noErr : SerializedError := mkErr "" "" "" None false false "".
Definition mkE (msg stack : string) : SerializedError :=
  mkErr "" stack msg None false false "".
Definition zeroStats : Stats := mkStats 0 0 0 0 0 0 0 0 0 0 0 0 0 [].
Definition ev (id : N) (t file ttl : string) : Event :=
  mkEvent id t file ttl noErr [] false 0 false false zeroStats 0 0 "" false "".
Definition fresh : Reporter := rep (construct false None).

(** ** Facts about the monad *)

Abbreviation set_flag := set_lastLineIsEmpty.

Definition out {A} (m : M A) (r : Reporter) : list string := snd (exec m r).
Definition after {A} (m : M A) (r : Reporter) : Reporter := fst (exec m r).

Lemma set_flag_self r : set_flag (lastLineIsEmpty r) r = r.
Proof. destruct r; reflexivity. Qed.

Lemma set_flag_twice b b' r : set_flag b' (set_flag b r) = set_flag b' r.
Proof. destruct r; reflexivity. Qed.

(** A computation that never throws and changes nothing but the
    blank-line flag. *)
Definition flag_only {A} (m : M A) : Prop :=
  forall r, exists a b o, m r = Ret a (set_flag b r) o.

(** A computation whose output does not depend on the blank-line flag. *)
Definition flag_indep (m : M unit) : Prop :=
  forall r b, out m (set_flag b r) = out m r.

Lemma flag_only_ret {A} (a : A) : flag_only (ret a).
Proof. intro r. exists a, (lastLineIsEmpty r), []. now rewrite set_flag_self. Qed.

Lemma flag_only_get : flag_only get.
Proof. intro r. exists r, (lastLineIsEmpty r), []. now rewrite set_flag_self. Qed.

Lemma flag_only_write s : flag_only (write s).
Proof. intro r. exists tt, (lastLineIsEmpty r), [s]. now rewrite set_flag_self. Qed.

Lemma flag_only_modify_flag b : flag_only (modify (set_flag b)).
Proof. intro r. exists tt, b, []. reflexivity. Qed.

Lemma flag_only_bind {A B} (m : M A) (k : A -> M B) :
  flag_only m -> (forall a, flag_only (k a)) -> flag_only (bind m k).
Proof.
  intros Hm Hk r. destruct (Hm r) as (a & b & o & E).
  destruct (Hk a (set_flag b r)) as (a' & b' & o' & E').
  exists a', b', (o ++ o'). unfold bind. rewrite E, E', set_flag_twice.
  reflexivity.
Qed.

Lemma flag_only_for_each {A} (l : list A) (f : A -> M unit) :
  (forall x, flag_only (f x)) -> flag_only (for_each l f).
Proof.
  intro Hf. induction l as [|x l IH]; simpl.
  - apply flag_only_ret.
  - apply flag_only_bind; auto.
Qed.

Lemma out_bind {A B} (m : M A) (k : A -> M B) r a b o :
  m r = Ret a (set_flag b r) o ->
  out (bind m k) r = o ++ out (k a) (set_flag b r).
Proof.
  intro E. unfold out, exec, bind. rewrite E.
  destruct (k a (set_flag b r)); reflexivity.
Qed.

Lemma out_of_ret {A} (m : M A) r a r' o : m r = Ret a r' o -> out m r = o.
Proof. intro E. unfold out, exec. now rewrite E. Qed.

Lemma flag_indep_ret : flag_indep (ret tt).
Proof. intros r b. reflexivity. Qed.

Lemma flag_indep_bind (m : M unit) (k : unit -> M unit) :
  flag_only m -> flag_indep m -> (forall a, flag_indep (k a)) ->
  flag_indep (bind m k).
Proof.
  intros Ho Hm Hk r b.
  destruct (Ho (set_flag b r)) as ([] & b1 & o1 & E1).
  destruct (Ho r) as ([] & b2 & o2 & E2).
  rewrite (out_bind _ _ _ _ _ _ E1), (out_bind _ _ _ _ _ _ E2).
  rewrite set_flag_twice, Hk, (Hk tt r b2).
  f_equal. rewrite <- (out_of_ret _ _ _ _ _ E1), <- (out_of_ret _ _ _ _ _ E2).
  apply Hm.
Qed.

Lemma flag_indep_get (k : Reporter -> M unit) :
  (forall r b, k (set_flag b r) = k r) -> (forall r0, flag_indep (k r0)) ->
  flag_indep (bind get k).
Proof.
  intros Hk Hi r b.
  rewrite (out_bind get k (set_flag b r) (set_flag b r) b []),
          (out_bind get k r r (lastLineIsEmpty r) []).
  - simpl. rewrite Hk, set_flag_twice, (set_flag_self r). apply Hi.
  - now rewrite set_flag_self.
  - reflexivity.
Qed.

Lemma flag_indep_writeLine_gen (s : string) : flag_indep (write s).
Proof. intros r b. reflexivity. Qed.

Lemma flag_indep_modify b : flag_indep (modify (set_flag b)).
Proof. intros r b'. reflexivity. Qed.

Lemma flag_indep_for_each {A} (l : list A) (f : A -> M unit) :
  (forall x, flag_only (f x)) -> (forall x, flag_indep (f x)) ->
  flag_indep (for_each l f).
Proof.
  intros Ho Hi. induction l as [|x l IH]; simpl.
  - apply flag_indep_ret.
  - apply flag_indep_bind; auto.
Qed.

(** Proving [flag_only] and [flag_indep] of a method by its structure. *)
Ltac flag_solve :=
  repeat (intros;
    match goal with
    | |- flag_only (ret _) => apply flag_only_ret
    | |- flag_only get => apply flag_only_get
    | |- flag_only (write _) => apply flag_only_write
    | |- flag_only (modify (set_flag _)) => apply flag_only_modify_flag
    | |- flag_only (bind _ _) => apply flag_only_bind
    | |- flag_only (for_each _ _) => apply flag_only_for_each
    | |- flag_indep (ret _) => apply flag_indep_ret
    | |- flag_indep (write _) => apply flag_indep_writeLine_gen
    | |- flag_indep (modify (set_flag _)) => apply flag_indep_modify
    | |- flag_indep (bind get _) => apply flag_indep_get; [reflexivity|]
    | |- flag_indep (bind _ _) => apply flag_indep_bind
    | |- flag_indep (for_each _ _) => apply flag_indep_for_each
    | |- flag_only (if ?b then _ else _) => destruct b
    | |- flag_indep (if ?b then _ else _) => destruct b
    | |- flag_only (match ?x with _ => _ end) => destruct x
    | |- flag_indep (match ?x with _ => _ end) => destruct x
    | |- flag_only (let '(_, _) := ?x in _) => destruct x
    | |- flag_indep (let '(_, _) := ?x in _) => destruct x
    | |- _ => progress (unfold writeLine, ensureEmptyLine)
    end); intros.

Section Facts.
Variable c : Collab.

Lemma writeLine_flag_only s : flag_only (writeLine s).
Proof. unfold writeLine. flag_solve. Qed.

Lemma writeErr_flag_only e : flag_only (writeErr c e).
Proof. unfold writeErr. flag_solve. Qed.

Lemma writeErr_flag_indep e : flag_indep (writeErr c e).
Proof. unfold writeErr. flag_solve. Qed.

End Facts.

Lemma out_seq (m k : M unit) r :
  flag_only m -> flag_indep k -> out (m ;; k) r = out m r ++ out k r.
Proof.
  intros Hm Hk. destruct (Hm r) as ([] & b & o & E).
  rewrite (out_bind _ _ _ _ _ _ E), Hk. now rewrite (out_of_ret _ _ _ _ _ E).
Qed.

Lemma out_get (k : Reporter -> M unit) r : out (bind get k) r = out (k r) r.
Proof.
  rewrite (out_bind get k r r (lastLineIsEmpty r) []).
  - now rewrite set_flag_self.
  - now rewrite set_flag_self.
Qed.

Lemma out_writeLine s r : out (writeLine s) r = [cat [s; nl]].
Proof. reflexivity. Qed.

Lemma out_ret r : out (ret tt) r = [].
Proof. reflexivity. Qed.

Lemma out_for_each {A} (l : list A) (f : A -> M unit) r :
  (forall x, flag_only (f x)) -> (forall x, flag_indep (f x)) ->
  out (for_each l f) r = flat_map (fun x => out (f x) r) l.
Proof.
  intros Ho Hi. induction l as [|x l IH]; simpl.
  - reflexivity.
  - rewrite out_seq; auto using flag_indep_for_each. now rewrite IH.
Qed.

Section Facts2.
Variable c : Collab.

Lemma writeLogs_flag_only e : flag_only (writeLogs c e).
Proof. unfold writeLogs. flag_solve. Qed.

Lemma writeLogs_flag_indep e : flag_indep (writeLogs c e).
Proof. unfold writeLogs. flag_solve. Qed.

Lemma writeTestSummary_flag_only e : flag_only (writeTestSummary c e).
Proof. unfold writeTestSummary. flag_solve; apply writeLogs_flag_only. Qed.

Lemma writeTestSummary_flag_indep e : flag_indep (writeTestSummary c e).
Proof.
  unfold writeTestSummary. flag_solve;
    auto using writeLogs_flag_only, writeLogs_flag_indep, writeLine_flag_only.
Qed.

Lemma writeFailure_flag_only e : flag_only (writeFailure c e).
Proof.
  unfold writeFailure. flag_solve; auto using writeLogs_flag_only, writeErr_flag_only.
Qed.

Lemma writeFailure_flag_indep e : flag_indep (writeFailure c e).
Proof.
  unfold writeFailure.
  flag_solve; auto using writeLogs_flag_only, writeErr_flag_only,
    writeLogs_flag_indep, writeErr_flag_indep, writeLine_flag_only.
Qed.

Lemma writeCountLines_flag_only r s : flag_only (writeCountLines c r s).
Proof. unfold writeCountLines. flag_solve. Qed.

Lemma writeCountLines_flag_indep r s : flag_indep (writeCountLines c r s).
Proof. unfold writeCountLines. flag_solve; auto using writeLine_flag_only. Qed.

Lemma writeKnownFailures_flag_only r s : flag_only (writeKnownFailures c r s).
Proof. unfold writeKnownFailures. flag_solve. Qed.

Lemma writeKnownFailures_flag_indep r s : flag_indep (writeKnownFailures c r s).
Proof.
  unfold writeKnownFailures. flag_solve; auto using writeLine_flag_only.
Qed.

Lemma writeFailures_flag_only dis fs : flag_only (writeFailures c dis fs).
Proof.
  unfold writeFailures, writeFailureBlocks. flag_solve; apply writeFailure_flag_only.
Qed.

Lemma writeFailures_flag_indep dis fs : flag_indep (writeFailures c dis fs).
Proof.
  unfold writeFailures, writeFailureBlocks.
  flag_solve; auto using writeLine_flag_only, writeFailure_flag_only,
    writeFailure_flag_indep.
Qed.

Lemma endRun_flag_only : flag_only (endRun c).
Proof.
  unfold endRun. flag_solve;
    auto using writeCountLines_flag_only, writeKnownFailures_flag_only,
      writeFailures_flag_only.
Qed.

End Facts2.

Lemma after_flag_only {A} (m : M A) r :
  flag_only m -> exists b, after m r = set_flag b r.
Proof.
  intro H. destruct (H r) as (a & b & o & E). exists b. unfold after, exec.
  now rewrite E.
Qed.

Lemma after_get (k : Reporter -> M unit) r : after (bind get k) r = after (k r) r.
Proof. unfold after, exec, bind, get. simpl. destruct (k r r); reflexivity. Qed.

Lemma after_modify (k : M unit) f r : after (modify f ;; k) r = after k (f r).
Proof. unfold after, exec, bind, modify. destruct (k (f r)); reflexivity. Qed.

Lemma out_modify (k : M unit) f r : out (modify f ;; k) r = out k (f r).
Proof. unfold out, exec, bind, modify. destruct (k (f r)); reflexivity. Qed.

(** The fields an event records, by type: what [consumeStateChange] pushes
    or assigns, besides the blank-line flag. *)
Definition is_failure (e : Event) : bool :=
  String.eqb (type e) "hook-failed" || String.eqb (type e) "test-failed".

Definition recorded (e : Event) (r : Reporter) : Reporter :=
  let t := type e in
  if is_failure e then set_failures (failures r ++ [e]) r
  else if String.eqb t "missing-ava-import" then
    set_filesWithMissingAvaImports (set_add (testFile e) (filesWithMissingAvaImports r)) r
  else if String.eqb t "stats" then set_stats (Some (stats_of e)) r
  else if String.eqb t "test-passed" && knownFailing e then
    set_knownFailures (knownFailures r ++ [e]) r
  else r.

Ltac case_type e :=
  repeat match goal with
  | |- context [String.eqb (type e) ?s] =>
      let H := fresh "Ht" in
      destruct (String.eqb_spec (type e) s) as [H|H];
      [rewrite ?H in *; simpl | ]
  end.

Section Consume.
Variable c : Collab.

Lemma consume_recorded e r :
  exists b, after (consumeStateChange c e) r = set_flag b (recorded e r).
Proof.
  unfold consumeStateChange. rewrite after_get. cbv zeta.
  unfold recorded, is_failure. case_type e;
    try destruct (knownFailing e);
    try (destruct (negb (forcedExit e) && _); [destruct (fileStatsOf r e)|]);
    rewrite ?after_modify;
    try (exists (lastLineIsEmpty r); rewrite set_flag_self; reflexivity);
    try (apply after_flag_only; flag_solve;
         auto using writeTestSummary_flag_only, writeErr_flag_only; fail);
    try (exists (lastLineIsEmpty r); destruct r; reflexivity).
Qed.

End Consume.

Section EndRun.
Variable c : Collab.

Lemma endRun_out r s :
  stats r = Some s ->
  (matching r && N.eqb (selectedTests s) 0) = false ->
  out (endRun c) r =
    [cat [""; nl]] ++ out (writeCountLines c r s) r ++
    out (writeKnownFailures c r s) r ++
    out (writeFailures c (shouldWriteFailFastDisclaimer r s) (failures r)) r ++
    (if shouldWriteFailFastDisclaimer r s
     then [cat [failFastDisclaimerLine c s; nl]] else []) ++
    [cat [""; nl]].
Proof.
  intros Hs Hm. unfold endRun. rewrite out_get, Hs, Hm. cbv zeta.
  rewrite !out_seq;
    auto using writeLine_flag_only, writeCountLines_flag_only,
      writeKnownFailures_flag_only, writeFailures_flag_only,
      writeCountLines_flag_indep, writeKnownFailures_flag_indep,
      writeFailures_flag_indep;
    try (flag_solve; auto using writeLine_flag_only, writeCountLines_flag_only,
      writeKnownFailures_flag_only, writeFailures_flag_only,
      writeCountLines_flag_indep, writeKnownFailures_flag_indep,
      writeFailures_flag_indep; fail).
  destruct (shouldWriteFailFastDisclaimer r s); reflexivity.
Qed.

Definition three_blanks : list string := [cat [""; nl]; cat [""; nl]; cat [""; nl]].

Lemma writeFailures_out dis fs r :
  out (writeFailures c dis fs) r =
  match fs with
  | [] => []
  | e0 :: _ =>
      cat [""; nl] ::
      flat_map (fun e => out (writeFailure c e) r ++
                  (if negb (N.eqb (ev_id e) (ev_id (last fs e0))) || dis
                   then three_blanks else [])) fs
  end.
Proof.
  destruct fs as [|e0 fs']; [reflexivity|].
  unfold writeFailures. rewrite out_seq, out_writeLine.
  - cbn [app]. f_equal. unfold writeFailureBlocks. rewrite out_for_each.
    + apply flat_map_ext. intro e. rewrite out_seq.
      * f_equal. destruct (_ || dis); reflexivity.
      * apply writeFailure_flag_only.
      * flag_solve.
    + intro e. flag_solve. apply writeFailure_flag_only.
    + intro e. flag_solve; auto using writeFailure_flag_only, writeFailure_flag_indep,
        writeLine_flag_only.
  - apply writeLine_flag_only.
  - unfold writeFailureBlocks. apply flag_indep_for_each.
    + intro e. flag_solve. apply writeFailure_flag_only.
    + intro e. flag_solve; auto using writeFailure_flag_only, writeFailure_flag_indep,
        writeLine_flag_only.
Qed.

(** Delivering a sequence of events, one [consumeStateChange] call each, in
    arrival order. *)
Fixpoint consumeAll (r : Reporter) (evs : list Event) : Reporter :=
  match evs with
  | [] => r
  | e :: es => consumeAll (after (consumeStateChange c e) r) es
  end.

Lemma recorded_failures e r :
  failures (recorded e r) = failures r ++ (if is_failure e then [e] else []).
Proof.
  unfold recorded. destruct (is_failure e); simpl.
  - reflexivity.
  - rewrite app_nil_r.
    destruct (String.eqb (type e) "missing-ava-import"); [reflexivity|].
    destruct (String.eqb (type e) "stats"); [reflexivity|].
    destruct (String.eqb (type e) "test-passed" && knownFailing e); reflexivity.
Qed.

Lemma consumeAll_failures r evs :
  failures (consumeAll r evs) = failures r ++ filter is_failure evs.
Proof.
  revert r. induction evs as [|e es IH]; intro r; simpl.
  - now rewrite app_nil_r.
  - rewrite IH. destruct (consume_recorded c e r) as [b Hb]. rewrite Hb.
    change (failures (set_flag b (recorded e r))) with (failures (recorded e r)).
    rewrite recorded_failures, <- app_assoc. destruct (is_failure e); reflexivity.
Qed.

End EndRun.

(** ** The claims *)

(** C1.  Failures are recorded in arrival order and endRun renders their
    detail blocks in that order: after delivering [evs] to a reporter with no
    recorded failures (as [startRun] leaves it), [failures] is the
    subsequence of hook-failed and test-failed events of [evs], duplicates
    kept, and endRun's output contains one [writeFailure] block per entry of
    that subsequence, in its order, each followed by its separator (none or
    three blank lines). *)
Theorem failures_rendered_in_arrival_order c r evs s :
  failures r = [] ->
  stats (consumeAll c r evs) = Some s ->
  (matching (consumeAll c r evs) && N.eqb (selectedTests s) 0) = false ->
  failures (consumeAll c r evs) = filter is_failure evs /\
  exists pre post (sep : Event -> list string),
    (forall e, sep e = [] \/ sep e = three_blanks) /\
    out (endRun c) (consumeAll c r evs) =
      pre ++
      match filter is_failure evs with
      | [] => []
      | _ => cat [""; nl] ::
             flat_map (fun e => out (writeFailure c e) (consumeAll c r evs) ++ sep e)
                      (filter is_failure evs)
      end ++ post.
Proof.
  intros H0 Hs Hm.
  assert (Hf : failures (consumeAll c r evs) = filter is_failure evs)
    by now rewrite consumeAll_failures, H0.
  split; [exact Hf|].
  set (r' := consumeAll c r evs) in *.
  rewrite (endRun_out c r' s Hs Hm), writeFailures_out, Hf.
  destruct (filter is_failure evs) as [|e0 fs] eqn:E.
  - exists ([cat [""; nl]] ++ out (writeCountLines c r' s) r' ++
            out (writeKnownFailures c r' s) r'),
      ((if shouldWriteFailFastDisclaimer r' s
        then [cat [failFastDisclaimerLine c s; nl]] else []) ++ [cat [""; nl]]),
      (fun _ => []).
    split; [auto|]. rewrite <- !app_assoc. reflexivity.
  - exists ([cat [""; nl]] ++ out (writeCountLines c r' s) r' ++
            out (writeKnownFailures c r' s) r').
    exists ((if shouldWriteFailFastDisclaimer r' s
             then [cat [failFastDisclaimerLine c s; nl]] else []) ++ [cat [""; nl]]).
    exists (fun e => if negb (N.eqb (ev_id e) (ev_id (last (e0 :: fs) e0)))
                        || shouldWriteFailFastDisclaimer r' s
                     then three_blanks else []).
    split.
    + intro e. destruct (_ || _); auto.
    + rewrite <- !app_assoc. reflexivity.
Qed.

(** Whether a method call throws. *)
Definition throws (m : M unit) (r : Reporter) : bool :=
  match m r with Exc _ _ => true | Ret _ _ _ => false end.


Lemma flag_only_throws (m : M unit) r : flag_only m -> throws m r = false.
Proof. intro H. destruct (H r) as (a & b & o & E). unfold throws. now rewrite E. Qed.


Lemma throws_get (k : Reporter -> M unit) r : throws (bind get k) r = throws (k r) r.
Proof. unfold throws, bind, get. destruct (k r r); reflexivity. Qed.

Lemma throws_modify (k : M unit) f r : throws (modify f ;; k) r = throws k (f r).
Proof. unfold throws, bind, modify. destruct (k (f r)); reflexivity. Qed.

Lemma throws_ret_seq (k : M unit) r : throws (ret tt ;; k) r = throws k r.
Proof. unfold throws, bind, ret. destruct (k r); reflexivity. Qed.

Lemma consume_throws c e r :
  throws (consumeStateChange c e) r =
  String.eqb (type e) "worker-finished" && negb (forcedExit e) &&
  negb (existsb (String.eqb (testFile e)) (filesWithMissingAvaImports r)) &&
  match fileStatsOf r e with None => true | Some _ => false end.
Proof.
  unfold consumeStateChange. rewrite throws_get. cbv zeta. case_type e;
    rewrite ?throws_modify, ?throws_ret_seq;
    try reflexivity;
    try (apply flag_only_throws; flag_solve;
         auto using writeTestSummary_flag_only, writeErr_flag_only; fail).
  - destruct (knownFailing e);
      rewrite ?throws_modify, ?throws_ret_seq;
      apply flag_only_throws, writeTestSummary_flag_only.
  - destruct (negb (forcedExit e) && _); [|reflexivity].
    destruct (fileStatsOf r e); [|reflexivity].
    apply flag_only_throws; flag_solve.
Qed.


Lemma bind_get_eq (k : Reporter -> M unit) r : bind get k r = k r r.
Proof. unfold bind, get. destruct (k r r); reflexivity. Qed.


(** C3 (counterexample).  With no stats recorded, endRun writes more than
    the "Couldn't find any files to test" message: a blank line follows. *)
Lemma endRun_without_stats_writes_blank_line :
  out (endRun plain) fresh <> [cat ["  ✖ Couldn't find any files to test"; nl]].
Proof. vm_compute. discriminate. Qed.

(** C3 (amended).  If no stats event was consumed, endRun writes exactly
    two lines, the "Couldn't find any files to test" error line and one
    blank line, and returns; nothing else of the reporter changes but the
    blank-line flag. *)
Theorem endRun_without_stats c r :
  stats r = None ->
  endRun c r =
    Ret tt (set_flag true r)
      [cat [c_error c (cat ["  "; c_cross c; " Couldn't find any files to test"]); nl];
       cat [""; nl]].
Proof.
  intro H. unfold endRun. rewrite bind_get_eq, H.
  unfold writeLine, bind, write, modify. simpl. rewrite set_flag_twice.
  reflexivity.
Qed.

(** C4 (counterexample).  A known-failing test-passed event followed by a
    stats snapshot whose passedKnownFailingTests is 0: the event is in
    [knownFailures], yet endRun does not list it. *)
Definition knownEvent : Event :=
  mkEvent 1 "test-passed" "test.js" "flaky" noErr [] true 0 false false
    zeroStats 0 0 "" false "".

Definition staleStats : Event :=
  mkEvent 2 "stats" "" "" noErr [] false 0 false false
    (mkStats 1 0 0 1 0 0 0 0 0 0 1 1 1 []) 0 0 "" false "".

Lemma known_failure_not_listed :
  In knownEvent (knownFailures (consumeAll plain fresh [knownEvent; staleStats])) /\
  ~ In (cat ["  flaky"; nl]) (out (endRun plain) (consumeAll plain fresh [knownEvent; staleStats])).
Proof. vm_compute. split; [auto | intuition discriminate]. Qed.

Lemma out_writeTestSummary c e r :
  out (writeTestSummary c e) r =
  out (if String.eqb (type e) "hook-failed" || String.eqb (type e) "test-failed" then
         writeLine (cat ["  "; c_error c (c_cross c); " ";
                         applyPrefix c r (testFile e) (title e); " ";
                         c_error c (err_message (err e))])
       else if knownFailing e then
         writeLine (cat ["  "; c_error c (c_tick c); " ";
                         c_error c (applyPrefix c r (testFile e) (title e))])
       else
         let dur := if N.ltb threshold (duration e)
                    then c_duration c (cat [" ("; c_prettyMs c (duration e); ")"])
                    else "" in
         writeLine (cat ["  "; c_pass c (c_tick c); " ";
                         applyPrefix c r (testFile e) (title e); dur])) r ++
  out (writeLogs c e) r.
Proof.
  unfold writeTestSummary. rewrite out_get, out_seq.
  - reflexivity.
  - flag_solve.
  - apply writeLogs_flag_indep.
Qed.

(** C4 (amended).  A test-passed event with knownFailing true is appended
    to [knownFailures] and its summary line is the error-styled tick with
    [colors.error] of the prefixed title (not the pass-styled line).  When
    endRun reaches the summary (stats recorded, not the no-matching-tests
    return), its known-failures part is, if the stats snapshot's
    passedKnownFailingTests is positive, one blank line followed by one line
    [colors.error(prefixedTitle)] per entry of [knownFailures], in order, and
    otherwise nothing: the list is gated on the stats count. *)
Theorem known_failures_recorded_and_listed c e r r2 s :
  type e = "test-passed" -> knownFailing e = true ->
  stats r2 = Some s -> (matching r2 && N.eqb (selectedTests s) 0) = false ->
  knownFailures (after (consumeStateChange c e) r) = knownFailures r ++ [e] /\
  hd_error (out (consumeStateChange c e) r) =
    Some (cat [cat ["  "; c_error c (c_tick c); " ";
                    c_error c (applyPrefix c r (testFile e) (title e))]; nl]) /\
  (exists pre post, out (endRun c) r2 = pre ++ out (writeKnownFailures c r2 s) r2 ++ post) /\
  out (writeKnownFailures c r2 s) r2 =
    if N.ltb 0 (passedKnownFailingTests s) then
      cat [""; nl] ::
      map (fun k => cat [cat ["  "; c_error c (applyPrefix c r2 (testFile k) (title k))]; nl])
          (knownFailures r2)
    else [].
Proof.
  intros Ht Hk Hs Hm. split; [|split; [|split]].
  - destruct (consume_recorded c e r) as [b Hb]. rewrite Hb.
    unfold recorded, is_failure. rewrite Ht, Hk. reflexivity.
  - unfold consumeStateChange. rewrite out_get. cbv zeta. rewrite Ht, Hk. simpl.
    rewrite out_modify, out_writeTestSummary. rewrite Ht, Hk. simpl. reflexivity.
  - rewrite (endRun_out c r2 s Hs Hm).
    eexists ([cat [""; nl]] ++ out (writeCountLines c r2 s) r2), _.
    rewrite <- !app_assoc. reflexivity.
  - unfold writeKnownFailures. destruct (N.ltb 0 _); [|reflexivity].
    rewrite out_seq, out_writeLine, out_for_each.
    + cbn [app]. f_equal.
    + intro; apply writeLine_flag_only.
    + intro; flag_solve.
    + apply writeLine_flag_only.
    + apply flag_indep_for_each; intro; flag_solve.
Qed.

(** The world invariant: the registrations on the emitters are exactly the
    one whose unsubscribe handle the reporter holds, and the constructor's
    options are unchanged. *)
Definition opt_list (o : option N) : list N :=
  match o with Some e => [e] | None => [] end.

Definition world_inv (ww : bool) (cols : option N) (w : World) : Prop :=
  subs w = opt_list (removePreviousListener (rep w)) /\
  watching (rep w) = ww /\ columns (rep w) = cols.

Lemma recorded_keeps e r :
  removePreviousListener (recorded e r) = removePreviousListener r /\
  watching (recorded e r) = watching r /\ columns (recorded e r) = columns r.
Proof.
  unfold recorded.
  destruct (is_failure e); [auto|].
  destruct (String.eqb _ "missing-ava-import"); [auto|].
  destruct (String.eqb _ "stats"); [auto|].
  destruct (_ && knownFailing e); auto.
Qed.

Section World.
Variable c : Collab.
Variables (ww : bool) (cols : option N).

Lemma exec_consume_keeps e r :
  removePreviousListener (fst (exec (consumeStateChange c e) r)) = removePreviousListener r /\
  watching (fst (exec (consumeStateChange c e) r)) = watching r /\
  columns (fst (exec (consumeStateChange c e) r)) = columns r.
Proof.
  destruct (consume_recorded c e r) as [b Hb]. unfold after in Hb. rewrite Hb.
  apply recorded_keeps.
Qed.

Lemma emit_inv w e evt : world_inv ww cols w -> world_inv ww cols (fst (emit c w e evt)).
Proof.
  intros (Hs & Hw & Hc). unfold emit.
  assert (Hfold : forall l acc,
    removePreviousListener (fst acc) = removePreviousListener (rep w) /\
    watching (fst acc) = ww /\ columns (fst acc) = cols ->
    let res := fold_left (fun acc x =>
                 let '(r, o) := acc in
                 if N.eqb x e then
                   let '(r', o') := exec (consumeStateChange c evt) r in (r', o ++ o')
                 else acc) l acc in
    removePreviousListener (fst res) = removePreviousListener (rep w) /\
    watching (fst res) = ww /\ columns (fst res) = cols).
  { induction l as [|x l IH]; intros [r o] H; simpl; [exact H|].
    apply IH. destruct (N.eqb x e); [|exact H].
    pose proof (exec_consume_keeps evt r) as (K1 & K2 & K3).
    destruct (exec (consumeStateChange c evt) r) as [r' o'] eqn:E. simpl in *.
    rewrite K1, K2, K3. exact H. }
  specialize (Hfold (subs w) (rep w, []) (conj eq_refl (conj Hw Hc))).
  destruct (fold_left _ (subs w) (rep w, [])) as [r o]. simpl in *.
  destruct Hfold as (H1 & H2 & H3). unfold world_inv. simpl. rewrite H1. auto.
Qed.

Lemma endRun_keeps r :
  exists b, fst (exec (endRun c) r) = set_flag b r.
Proof. apply (after_flag_only (endRun c) r), endRun_flag_only. Qed.

(** The reporter's fields after [startRun(plan)] on a world satisfying the
    invariant. *)
Definition started (plan : Plan) : Reporter :=
  mkReporter ww cols (p_failFastEnabled plan) [] [] [] true (p_matching plan)
    (if ww || Nat.ltb 1 (List.length (p_files plan))
     then Some (p_filePathPrefix plan) else None)
    (p_previousFailures plan) (Some (p_status plan)) None.

Lemma startRun_world w plan :
  world_inv ww cols w ->
  fst (startRun c w plan) = mkWorld (started plan) [p_status plan].
Proof.
  intros (Hs & Hw & Hc). unfold startRun, reset. simpl.
  rewrite Hs. destruct (removePreviousListener (rep w)) as [e|]; simpl;
    [rewrite N.eqb_refl|]; rewrite Hw, Hc;
    destruct (ww && _); reflexivity.
Qed.

Lemma startRun_out w plan :
  world_inv ww cols w ->
  snd (startRun c w plan) =
    (if ww && N.ltb 1 (p_runVector plan) then
       [cat [c_grayDim c (c_rule c (match cols with
                                    | Some n => if N.eqb n 0 then 80 else n
                                    | None => 80 end)); nl]]
     else []) ++ [cat [""; nl]].
Proof.
  intros (Hs & Hw & Hc). unfold startRun, reset. simpl. rewrite Hw, Hc.
  destruct (ww && _); reflexivity.
Qed.

Lemma step_inv w a : world_inv ww cols w -> world_inv ww cols (fst (step c w a)).
Proof.
  intro H. destruct a as [plan|e evt|]; simpl.
  - rewrite (startRun_world w plan H). unfold world_inv. simpl. auto.
  - now apply emit_inv.
  - destruct H as (Hs & Hw & Hc). destruct (endRun_keeps (rep w)) as [b Hb].
    destruct (exec (endRun c) (rep w)) as [r o]. simpl in *. subst r.
    unfold world_inv. simpl. auto.
Qed.

Lemma run_inv w acts : world_inv ww cols w -> world_inv ww cols (fst (run c w acts)).
Proof.
  revert w. induction acts as [|a acts IH]; intros w H; simpl; [exact H|].
  pose proof (step_inv w a H) as H1.
  destruct (step c w a) as [w1 o1]. simpl in H1.
  specialize (IH w1 H1). destruct (run c w1 acts) as [w2 o2]. exact IH.
Qed.

Lemma construct_inv : world_inv ww cols (construct ww cols).
Proof. repeat split. Qed.

Lemma run_app w a b :
  run c w (a ++ b) =
  let '(w1, o1) := run c w a in let '(w2, o2) := run c w1 b in (w2, o1 ++ o2).
Proof.
  revert w. induction a as [|x a IH]; intro w; simpl.
  - destruct (run c w b); reflexivity.
  - destruct (step c w x) as [w1 o1]. rewrite IH.
    destruct (run c w1 a) as [w2 o2]. destruct (run c w2 b) as [w3 o3].
    now rewrite app_assoc.
Qed.

End World.

(** C5.  Whatever happened before (any sequence of startRun, event and
    endRun calls since the reporter was constructed), startRun(plan) leaves
    the same reporter: failures, knownFailures, filesWithMissingAvaImports
    empty, stats unset, failFastEnabled, matching, previousFailures and the
    title prefixer taken from the plan, the blank-line flag set by its own
    trailing blank line, and exactly one listener registered, the new one on
    [plan.status] (the previous one removed).  Hence two histories followed by
    the same startRun and the same later calls end in the same state with
    the same output after that startRun. *)
Theorem startRun_supersedes_previous_run c ww cols acts1 acts2 plan acts :
  fst (startRun c (fst (run c (construct ww cols) acts1)) plan) =
    mkWorld (started ww cols plan) [p_status plan] /\
  exists o1 o2 wN o,
    run c (construct ww cols) (acts1 ++ StartRun plan :: acts) = (wN, o1 ++ o) /\
    run c (construct ww cols) (acts2 ++ StartRun plan :: acts) = (wN, o2 ++ o).
Proof.
  pose proof (run_inv c ww cols (construct ww cols) acts1 (construct_inv ww cols)) as H1.
  pose proof (run_inv c ww cols (construct ww cols) acts2 (construct_inv ww cols)) as H2.
  split; [now apply startRun_world|].
  rewrite !run_app.
  destruct (run c (construct ww cols) acts1) as [w1 o1] eqn:E1.
  destruct (run c (construct ww cols) acts2) as [w2 o2] eqn:E2.
  simpl in H1, H2. simpl.
  pose proof (startRun_world c ww cols w1 plan H1) as S1.
  pose proof (startRun_world c ww cols w2 plan H2) as S2.
  pose proof (startRun_out c ww cols w1 plan H1) as O1.
  pose proof (startRun_out c ww cols w2 plan H2) as O2.
  destruct (startRun c w1 plan) as [w1' p1]. destruct (startRun c w2 plan) as [w2' p2].
  simpl in *. subst w1' w2'. rewrite <- O2 in O1. subst p1.
  destruct (run c (mkWorld (started ww cols plan) [p_status plan]) acts) as [wN o].
  exists o1, o2, wN, (p2 ++ o). split; reflexivity.
Qed.

Lemma str_app_assoc (a b d : string) :
  String.append (String.append a b) d = String.append a (String.append b d).
Proof. induction a as [|x a IH]; simpl; [reflexivity|now rewrite IH]. Qed.

Lemma str_app_nil (a : string) : String.append a "" = a.
Proof. induction a as [|x a IH]; simpl; [reflexivity|now rewrite IH]. Qed.

(** C6.  With fail-fast on and a stats snapshot with remainingTests 2,
    files 5 and finishedWorkers 3, endRun writes the line
    [colors.information] of "`--fail-fast` is on. At least 2 tests were
    skipped, as well as 2 test files." (indented by two spaces).  In general
    the disclaimer text is a tests part, the ", as well as " joint, present
    exactly when remainingTests > 0 and files > finishedWorkers, and a files
    part; "test was"/"tests were" and "test file"/"test files" and
    "was"/"were" are singular exactly when their count is 1. *)
Theorem fail_fast_disclaimer_wording c r s :
  failFastEnabled r = true -> stats r = Some s ->
  (matching r && N.eqb (selectedTests s) 0) = false ->
  remainingTests s = 2 -> files s = 5 -> finishedWorkers s = 3 ->
  In (cat [failFastDisclaimerLine c s; nl]) (out (endRun c) r) /\
  failFastDisclaimerLine c s =
    cat ["  "; c_information c
      "`--fail-fast` is on. At least 2 tests were skipped, as well as 2 test files."] /\
  (forall s',
     let rt := remainingTests s' in
     let k := files s' - finishedWorkers s' in
     failFastRemaining s' =
     cat [ (if N.ltb 0 rt then
              cat ["At least "; show_N rt; " ";
                   (if N.eqb rt 1 then "test was" else "tests were"); " skipped"]
            else "");
           (if N.ltb 0 rt && N.ltb (finishedWorkers s') (files s')
            then ", as well as " else "");
           (if N.ltb (finishedWorkers s') (files s') then
              cat [show_N k; " "; (if N.eqb k 1 then "test file" else "test files");
                   (if N.eqb rt 0
                    then cat [" "; (if N.eqb k 1 then "was" else "were"); " skipped"]
                    else "")]
            else "") ]).
Proof.
  intros Hf Hs Hm H2 H5 H3. split; [|split].
  - rewrite (endRun_out c r s Hs Hm).
    assert (Hd : shouldWriteFailFastDisclaimer r s = true).
    { unfold shouldWriteFailFastDisclaimer. now rewrite Hf, H2. }
    rewrite Hd. apply in_or_app; right. apply in_or_app; right.
    apply in_or_app; right. apply in_or_app; right. left. reflexivity.
  - unfold failFastDisclaimerLine, failFastRemaining. rewrite H2, H5, H3. reflexivity.
  - intro s'. cbv zeta. unfold failFastRemaining, plur3, cat. cbv zeta.
    destruct (N.ltb 0 (remainingTests s')), (N.ltb (finishedWorkers s') (files s'));
      simpl; repeat progress (rewrite ?str_app_nil, ?str_app_assoc; simpl);
      destruct (N.eqb (remainingTests s') 0); reflexivity.
Qed.

Lemma flat_map_ext_in {A B} (f g : A -> list B) (l : list A) :
  (forall x, In x l -> f x = g x) -> flat_map f l = flat_map g l.
Proof.
  induction l as [|x l IH]; intro H; simpl; [reflexivity|].
  rewrite (H x (or_introl eq_refl)), IH; auto. intros y Hy. apply H. now right.
Qed.

(** C7.  When failures were recorded (distinct event objects, as each event
    is consumed once), endRun's failure part is one blank line, then the
    blocks in order with exactly three blank lines after every block but the
    last; after the last block come three blank lines and the fail-fast
    disclaimer when the disclaimer prints, and otherwise only the final
    blank line of endRun. *)
Theorem failure_block_spacing c r s :
  stats r = Some s -> (matching r && N.eqb (selectedTests s) 0) = false ->
  failures r <> [] -> NoDup (map ev_id (failures r)) ->
  exists pre init e_last,
    failures r = init ++ [e_last] /\
    out (endRun c) r =
      pre ++ [cat [""; nl]] ++
      flat_map (fun e => out (writeFailure c e) r ++ three_blanks) init ++
      out (writeFailure c e_last) r ++
      (if shouldWriteFailFastDisclaimer r s
       then three_blanks ++ [cat [failFastDisclaimerLine c s; nl]]
       else []) ++
      [cat [""; nl]].
Proof.
  intros Hs Hm Hne Hnd.
  destruct (exists_last Hne) as (init & a & Ha).
  exists ([cat [""; nl]] ++ out (writeCountLines c r s) r ++
          out (writeKnownFailures c r s) r), init, a.
  split; [exact Ha|].
  rewrite (endRun_out c r s Hs Hm), writeFailures_out. rewrite Ha in *.
  assert (Hni : ~ In (ev_id a) (map ev_id init)).
  { rewrite map_app in Hnd. simpl in Hnd. intro Hin.
    apply (NoDup_remove_2 _ _ _ Hnd). now rewrite app_nil_r. }
  assert (Hb : forall e0,
    flat_map (fun e => out (writeFailure c e) r ++
                (if negb (N.eqb (ev_id e) (ev_id (last (init ++ [a]) e0)))
                    || shouldWriteFailFastDisclaimer r s
                 then three_blanks else [])) (init ++ [a]) =
    flat_map (fun e => out (writeFailure c e) r ++ three_blanks) init ++
    out (writeFailure c a) r ++
    (if shouldWriteFailFastDisclaimer r s then three_blanks else [])).
  { intro e0. rewrite flat_map_app, last_last. f_equal.
    - apply flat_map_ext_in. intros e He.
      destruct (N.eqb_spec (ev_id e) (ev_id a)) as [E|E]; [|reflexivity].
      exfalso. apply Hni. rewrite <- E. now apply in_map.
    - simpl. rewrite N.eqb_refl, app_nil_r. reflexivity. }
  destruct (init ++ [a]) as [|e0 rest] eqn:E; [destruct init; discriminate|].
  rewrite Hb. destruct (shouldWriteFailFastDisclaimer r s);
    rewrite <- !app_assoc; cbn [app]; rewrite <- ?app_assoc; reflexivity.
Qed.

Lemma run_flag (m : M unit) r b :
  flag_only m -> flag_indep m ->
  exists b', m (set_flag b r) = Ret tt (set_flag b' r) (out m r).
Proof.
  intros Ho Hi. destruct (Ho (set_flag b r)) as ([] & b' & o & E).
  exists b'. rewrite E, set_flag_twice. f_equal.
  rewrite <- (Hi r b). unfold out, exec. now rewrite E.
Qed.

Lemma bind_Ret {A B} (m : M A) (k : A -> M B) st a st1 o1 b st2 o2 :
  m st = Ret a st1 o1 -> k a st1 = Ret b st2 o2 ->
  bind m k st = Ret b st2 (o1 ++ o2).
Proof. intros E1 E2. unfold bind. now rewrite E1, E2. Qed.

(** Whether a text's last line is blank: it ends with two newlines. *)
Definition ends_with_blank_line (s : string) : bool :=
  match rev (list_ascii_of_string s) with
  | a :: b :: _ => Ascii.eqb a (ascii_of_nat 10) && Ascii.eqb b (ascii_of_nat 10)
  | _ => false
  end.

Definition internalErrorEvent : Event :=
  mkEvent 1 "internal-error" "test.js" "" (mkErr "Error: boom" "at worker" "boom" None false false "")
    [] false 0 false false zeroStats 0 0 "" false "".

Definition uncaughtEvent : Event :=
  mkEvent 2 "uncaught-exception" "test.js" "" (mkE "boom" "Error: boom") [] false 0
    false false zeroStats 0 0 "" false "".

(** C8 (counterexample).  After an internal-error block the output already
    ends with a blank line, yet a following uncaught-exception event starts
    with another blank line: [writeLine('\n\n')] leaves [lastLineIsEmpty]
    false. *)
Lemma uncaught_after_internal_error_doubles_blank_line :
  ends_with_blank_line
    (String.concat "" (out (consumeStateChange plain internalErrorEvent) fresh)) = true /\
  hd_error (out (consumeStateChange plain uncaughtEvent)
              (after (consumeStateChange plain internalErrorEvent) fresh)) =
    Some (cat [""; nl]).
Proof. vm_compute. split; reflexivity. Qed.

(** C8 (amended).  An uncaught-exception or unhandled-rejection event writes
    a blank line first exactly when the [lastLineIsEmpty] flag is false (the
    flag records whether the last [writeLine] call was given the empty
    string), then the title line, a blank line, the error detail block and a
    trailing blank line, which sets the flag; so when two such events follow
    each other, the second starts directly with its title line. *)
Theorem uncaught_block_layout c e r :
  type e = "uncaught-exception" \/ type e = "unhandled-rejection" ->
  let heading := if String.eqb (type e) "uncaught-exception"
                 then "Uncaught exception in " else "Unhandled rejection in " in
  let titleLine := cat [cat ["  "; c_title c (cat [heading; c_relative c (testFile e)])]; nl] in
  consumeStateChange c e r =
    Ret tt (set_flag true r)
      ((if lastLineIsEmpty r then [] else [cat [""; nl]]) ++
       [titleLine; cat [""; nl]] ++ out (writeErr c e) r ++ [cat [""; nl]]) /\
  (forall r', lastLineIsEmpty r' = true ->
     hd_error (out (consumeStateChange c e) r') = Some titleLine).
Proof.
  intro Ht. cbv zeta.
  assert (H : forall r,
    consumeStateChange c e r =
    Ret tt (set_flag true r)
      ((if lastLineIsEmpty r then [] else [cat [""; nl]]) ++
       [cat [cat ["  "; c_title c (cat [if String.eqb (type e) "uncaught-exception"
                 then "Uncaught exception in " else "Unhandled rejection in ";
                 c_relative c (testFile e)])]; nl]; cat [""; nl]] ++
       out (writeErr c e) r ++ [cat [""; nl]])).
  { intro r0.
    assert (P : consumeStateChange c e r0 =
      (ensureEmptyLine ;;
       writeLine (cat ["  "; c_title c (cat [if String.eqb (type e) "uncaught-exception"
                 then "Uncaught exception in " else "Unhandled rejection in ";
                 c_relative c (testFile e)])]) ;;
       writeLine "" ;; writeErr c e ;; writeLine "") r0).
    { unfold consumeStateChange. rewrite bind_get_eq. cbv zeta.
      destruct Ht as [Ht|Ht]; rewrite Ht; reflexivity. }
    rewrite P. clear P.
    destruct (run_flag (writeErr c e) r0 true (writeErr_flag_only c e)
                (writeErr_flag_indep c e)) as [b' E].
    destruct (lastLineIsEmpty r0) eqn:Hl.
    - erewrite bind_Ret; [|unfold ensureEmptyLine; rewrite bind_get_eq, Hl; reflexivity|].
      + reflexivity.
      + erewrite bind_Ret; [|reflexivity|].
        * reflexivity.
        * erewrite bind_Ret; [|reflexivity|].
          -- reflexivity.
          -- rewrite !set_flag_twice. erewrite bind_Ret; [|exact E|].
             ++ reflexivity.
             ++ unfold writeLine, bind, write, modify. rewrite set_flag_twice.
                reflexivity.
    - erewrite bind_Ret; [|unfold ensureEmptyLine; rewrite bind_get_eq, Hl; reflexivity|].
      + reflexivity.
      + erewrite bind_Ret; [|reflexivity|].
        * reflexivity.
        * erewrite bind_Ret; [|reflexivity|].
          -- reflexivity.
          -- rewrite !set_flag_twice. erewrite bind_Ret; [|exact E|].
             ++ reflexivity.
             ++ unfold writeLine, bind, write, modify. rewrite set_flag_twice.
                reflexivity. }
  split; [apply H|].
  intros r' Hr'. unfold out, exec. rewrite H, Hr'. reflexivity.
Qed.

(** The number of blank lines at the end of a text: the newlines after its
    last non-empty line, less the one ending that line. *)
Fixpoint leading_newlines (l : list ascii) : nat :=
  match l with
  | a :: r => if Ascii.eqb a (ascii_of_nat 10) then S (leading_newlines r) else O
  | [] => O
  end.

Definition trailing_blank_lines (s : string) : nat :=
  pred (leading_newlines (rev (list_ascii_of_string s))).

(** C9 (counterexample).  The internal-error block ends with three blank
    lines, not two: [writeLine('\n\n')] writes three newlines. *)
Lemma internal_error_three_blank_lines :
  trailing_blank_lines
    (String.concat "" (out (consumeStateChange plain internalErrorEvent) fresh)) = 3%nat.
Proof. vm_compute. reflexivity. Qed.

(** C9 (amended).  An internal-error event writes the cross-mark line
    naming the file ("Internal error when running <file>", or "Internal
    error" when the event has no file), the indented summary, the indented
    stack, then [writeLine('\n\n')]: three newlines, that is three blank
    lines; the blank-line flag is left false. *)
Theorem internal_error_block c e r :
  type e = "internal-error" ->
  consumeStateChange c e r =
    Ret tt (set_flag false r)
      [cat [c_error c (if String.eqb (testFile e) ""
                       then cat ["  "; c_cross c; " Internal error"]
                       else cat ["  "; c_cross c; " Internal error when running ";
                                 c_relative c (testFile e)]); nl];
       cat [indentString (c_stack c (err_summary (err e))) 2; nl];
       cat [indentString (c_errorStack c (err_stack (err e))) 2; nl];
       cat [cat [nl; nl]; nl]].
Proof.
  intro Ht. unfold consumeStateChange. rewrite bind_get_eq. cbv zeta. rewrite Ht.
  cbn -[set_lastLineIsEmpty cat indentString].
  destruct (String.eqb (testFile e) "");
    cbn -[set_lastLineIsEmpty cat indentString]; rewrite !set_flag_twice; reflexivity.
Qed.

(** C10.  The line writeTestSummary writes for a test-passed event: with
    knownFailing, the error-styled tick and title and no duration, whatever
    the duration; otherwise the pass-styled tick and title followed by the
    duration suffix exactly when the duration is strictly greater than
    100 ms (so 100 ms gives no suffix). *)
Theorem test_passed_duration_suffix c e r :
  type e = "test-passed" ->
  hd_error (out (writeTestSummary c e) r) =
    Some (cat [if knownFailing e then
                 cat ["  "; c_error c (c_tick c); " ";
                      c_error c (applyPrefix c r (testFile e) (title e))]
               else
                 cat ["  "; c_pass c (c_tick c); " ";
                      applyPrefix c r (testFile e) (title e);
                      if N.ltb 100 (duration e)
                      then c_duration c (cat [" ("; c_prettyMs c (duration e); ")"])
                      else ""]; nl]).
Proof.
  intro Ht. rewrite out_writeTestSummary, Ht.
  destruct (knownFailing e); reflexivity.
Qed.

(** ** Witnesses: the theorems applied at concrete inputs *)

Definition statsSnap : Stats :=
  mkStats 3 1 1 1 0 0 0 0 0 0 1 1 3 [("test.js", mkFileStats 3 0)].

Definition statsEvent : Event :=
  mkEvent 10 "stats" "test.js" "" noErr [] false 0 false false statsSnap 0 0 "" false "".

Definition failA : Event :=
  mkEvent 11 "test-failed" "test.js" "a" (mkE "boom" (cat ["Error: boom"; nl; "    at a"]))
    [] false 0 false false zeroStats 0 0 "" false "".

Definition hookB : Event :=
  mkEvent 12 "hook-failed" "test.js" "b" (mkE "bad hook" "Error: bad hook")
    ["log line"] false 0 false false zeroStats 0 0 "" false "".

Definition runEvents : list Event := [failA; statsEvent; hookB; failA].

Lemma failures_rendered_in_arrival_order_witness :
  failures fresh = [] /\
  stats (consumeAll plain fresh runEvents) = Some statsSnap /\
  (matching (consumeAll plain fresh runEvents) && N.eqb (selectedTests statsSnap) 0) = false /\
  (failures (consumeAll plain fresh runEvents) = filter is_failure runEvents /\
   exists pre post (sep : Event -> list string),
     (forall e, sep e = [] \/ sep e = three_blanks) /\
     out (endRun plain) (consumeAll plain fresh runEvents) =
       pre ++
       match filter is_failure runEvents with
       | [] => []
       | _ => cat [""; nl] ::
              flat_map (fun e => out (writeFailure plain e)
                                   (consumeAll plain fresh runEvents) ++ sep e)
                       (filter is_failure runEvents)
       end ++ post).
Proof.
  split; [reflexivity|]. split; [vm_compute; reflexivity|].
  split; [vm_compute; reflexivity|].
  apply (failures_rendered_in_arrival_order plain fresh runEvents statsSnap); vm_compute; reflexivity.
Defined.

Lemma endRun_without_stats_witness :
  stats fresh = None /\
  endRun plain fresh =
    Ret tt (set_flag true fresh)
      [cat [c_error plain (cat ["  "; c_cross plain; " Couldn't find any files to test"]); nl];
       cat [""; nl]].
Proof. split; [reflexivity|]. apply (endRun_without_stats plain fresh). reflexivity. Defined.

Definition knownStats : Stats :=
  mkStats 1 0 0 1 1 0 0 0 0 0 1 1 1 [].

Definition withKnown : Reporter :=
  consumeAll plain fresh [knownEvent; mkEvent 3 "stats" "" "" noErr [] false 0 false false
                                         knownStats 0 0 "" false ""].

Lemma known_failures_recorded_and_listed_witness :
  type knownEvent = "test-passed" /\ knownFailing knownEvent = true /\
  stats withKnown = Some knownStats /\
  (matching withKnown && N.eqb (selectedTests knownStats) 0) = false /\
  (knownFailures (after (consumeStateChange plain knownEvent) fresh) =
     knownFailures fresh ++ [knownEvent] /\
   hd_error (out (consumeStateChange plain knownEvent) fresh) =
     Some (cat [cat ["  "; c_error plain (c_tick plain); " ";
                     c_error plain (applyPrefix plain fresh (testFile knownEvent)
                                      (title knownEvent))]; nl]) /\
   (exists pre post, out (endRun plain) withKnown =
                       pre ++ out (writeKnownFailures plain withKnown knownStats) withKnown ++ post) /\
   out (writeKnownFailures plain withKnown knownStats) withKnown =
     if N.ltb 0 (passedKnownFailingTests knownStats) then
       cat [""; nl] ::
       map (fun k => cat [cat ["  "; c_error plain (applyPrefix plain withKnown
                                                    (testFile k) (title k))]; nl])
           (knownFailures withKnown)
     else []).
Proof.
  split; [reflexivity|]. split; [reflexivity|].
  split; [vm_compute; reflexivity|]. split; [vm_compute; reflexivity|].
  apply (known_failures_recorded_and_listed plain knownEvent fresh withKnown knownStats); vm_compute; reflexivity.
Defined.

Definition failFastStats : Stats :=
  mkStats 4 0 1 0 0 0 0 0 0 2 5 3 4 [].

Definition failFastRun : Reporter :=
  mkReporter false None true [failA] [] [] false false None 0 (Some 0) (Some failFastStats).

Lemma fail_fast_disclaimer_wording_witness :
  failFastEnabled failFastRun = true /\ stats failFastRun = Some failFastStats /\
  (matching failFastRun && N.eqb (selectedTests failFastStats) 0) = false /\
  remainingTests failFastStats = 2 /\ files failFastStats = 5 /\
  finishedWorkers failFastStats = 3 /\
  (In (cat [failFastDisclaimerLine plain failFastStats; nl]) (out (endRun plain) failFastRun) /\
   failFastDisclaimerLine plain failFastStats =
     cat ["  "; c_information plain
       "`--fail-fast` is on. At least 2 tests were skipped, as well as 2 test files."] /\
   (forall s',
      let rt := remainingTests s' in
      let k := files s' - finishedWorkers s' in
      failFastRemaining s' =
      cat [ (if N.ltb 0 rt then
               cat ["At least "; show_N rt; " ";
                    (if N.eqb rt 1 then "test was" else "tests were"); " skipped"]
             else "");
            (if N.ltb 0 rt && N.ltb (finishedWorkers s') (files s')
             then ", as well as " else "");
            (if N.ltb (finishedWorkers s') (files s') then
               cat [show_N k; " "; (if N.eqb k 1 then "test file" else "test files");
                    (if N.eqb rt 0
                     then cat [" "; (if N.eqb k 1 then "was" else "were"); " skipped"]
                     else "")]
             else "") ])).
Proof.
  do 6 (split; [reflexivity|]).
  apply (fail_fast_disclaimer_wording plain failFastRun failFastStats); reflexivity.
Defined.

Definition twoFailures : Reporter :=
  mkReporter false None true [failA; hookB] [] [] false false None 0 (Some 0) (Some failFastStats).

Lemma failure_block_spacing_witness :
  stats twoFailures = Some failFastStats /\
  (matching twoFailures && N.eqb (selectedTests failFastStats) 0) = false /\
  failures twoFailures <> [] /\ NoDup (map ev_id (failures twoFailures)) /\
  exists pre init e_last,
    failures twoFailures = init ++ [e_last] /\
    out (endRun plain) twoFailures =
      pre ++ [cat [""; nl]] ++
      flat_map (fun e => out (writeFailure plain e) twoFailures ++ three_blanks) init ++
      out (writeFailure plain e_last) twoFailures ++
      (if shouldWriteFailFastDisclaimer twoFailures failFastStats
       then three_blanks ++ [cat [failFastDisclaimerLine plain failFastStats; nl]]
       else []) ++
      [cat [""; nl]].
Proof.
  split; [reflexivity|]. split; [reflexivity|].
  assert (Hne : failures twoFailures <> []) by discriminate.
  assert (Hnd : NoDup (map ev_id (failures twoFailures))).
  { simpl. constructor; [simpl; intuition discriminate|].
    constructor; [simpl; tauto|constructor]. }
  split; [exact Hne|]. split; [exact Hnd|].
  apply (failure_block_spacing plain twoFailures failFastStats); [reflexivity|reflexivity|exact Hne|exact Hnd].
Defined.

Lemma uncaught_block_layout_witness :
  (type uncaughtEvent = "uncaught-exception" \/ type uncaughtEvent = "unhandled-rejection") /\
  (let heading := if String.eqb (type uncaughtEvent) "uncaught-exception"
                  then "Uncaught exception in " else "Unhandled rejection in " in
   let titleLine := cat [cat ["  "; c_title plain (cat [heading; c_relative plain
                                                          (testFile uncaughtEvent)])]; nl] in
   consumeStateChange plain uncaughtEvent fresh =
     Ret tt (set_flag true fresh)
       ((if lastLineIsEmpty fresh then [] else [cat [""; nl]]) ++
        [titleLine; cat [""; nl]] ++ out (writeErr plain uncaughtEvent) fresh ++
        [cat [""; nl]]) /\
   (forall r', lastLineIsEmpty r' = true ->
      hd_error (out (consumeStateChange plain uncaughtEvent) r') = Some titleLine)).
Proof.
  split; [left; reflexivity|].
  apply (uncaught_block_layout plain uncaughtEvent fresh). left. reflexivity.
Defined.

Lemma internal_error_block_witness :
  type internalErrorEvent = "internal-error" /\
  consumeStateChange plain internalErrorEvent fresh =
    Ret tt (set_flag false fresh)
      [cat [c_error plain (if String.eqb (testFile internalErrorEvent) ""
                           then cat ["  "; c_cross plain; " Internal error"]
                           else cat ["  "; c_cross plain; " Internal error when running ";
                                     c_relative plain (testFile internalErrorEvent)]); nl];
       cat [indentString (c_stack plain (err_summary (err internalErrorEvent))) 2; nl];
       cat [indentString (c_errorStack plain (err_stack (err internalErrorEvent))) 2; nl];
       cat [cat [nl; nl]; nl]].
Proof. split; [reflexivity|]. apply (internal_error_block plain internalErrorEvent fresh). reflexivity. Defined.

Definition slowPass : Event :=
  mkEvent 5 "test-passed" "test.js" "slow" noErr [] false 100 false false
    zeroStats 0 0 "" false "".

Lemma test_passed_duration_suffix_witness :
  type slowPass = "test-passed" /\
  hd_error (out (writeTestSummary plain slowPass) fresh) =
    Some (cat [if knownFailing slowPass then
                 cat ["  "; c_error plain (c_tick plain); " ";
                      c_error plain (applyPrefix plain fresh (testFile slowPass) (title slowPass))]
               else
                 cat ["  "; c_pass plain (c_tick plain); " ";
                      applyPrefix plain fresh (testFile slowPass) (title slowPass);
                      if N.ltb 100 (duration slowPass)
                      then c_duration plain (cat [" ("; c_prettyMs plain (duration slowPass); ")"])
                      else ""]; nl]).
Proof. split; [reflexivity|]. apply (test_passed_duration_suffix plain slowPass fresh). reflexivity. Defined.



(** * Further properties of the reporter *)

(** A computation that never throws, keeps every field but the blank-line
    flag, sets that flag and writes a blank line last. *)
Definition ends_blank (m : M unit) : Prop :=
  forall r, exists o, m r = Ret tt (set_flag true r) (o ++ [cat [""; nl]]).

Lemma ends_blank_writeLine : ends_blank (writeLine "").
Proof. intro r. exists []. reflexivity. Qed.

Lemma ends_blank_bind {A} (m : M A) (k : A -> M unit) :
  flag_only m -> (forall a, ends_blank (k a)) -> ends_blank (bind m k).
Proof.
  intros Hm Hk r. destruct (Hm r) as (a & b & o & E).
  destruct (Hk a (set_flag b r)) as (o' & E'). exists (o ++ o').
  unfold bind. rewrite E, E', set_flag_twice, app_assoc. reflexivity.
Qed.

Section More.
Variable c : Collab.

Lemma endRun_ends_blank : ends_blank (endRun c).
Proof.
  unfold endRun.
  repeat (intros; cbv zeta;
    match goal with
    | |- ends_blank (writeLine "") => apply ends_blank_writeLine
    | |- ends_blank (bind _ _) => apply ends_blank_bind
    | |- ends_blank (match ?x with _ => _ end) => destruct x
    | |- ends_blank (if ?b then _ else _) => destruct b
    | |- flag_only _ =>
        first [ apply flag_only_get | apply writeLine_flag_only
              | apply writeCountLines_flag_only | apply writeKnownFailures_flag_only
              | apply writeFailures_flag_only | flag_solve ]
    end).
Qed.

Lemma endRun_flag_indep : flag_indep (endRun c).
Proof.
  unfold endRun. apply flag_indep_get.
  - intros r b. destruct r; reflexivity.
  - intro r0. flag_solve;
      auto using writeLine_flag_only, writeCountLines_flag_only,
        writeKnownFailures_flag_only, writeFailures_flag_only,
        writeCountLines_flag_indep, writeKnownFailures_flag_indep,
        writeFailures_flag_indep.
Qed.

Lemma endRun_ret r : endRun c r = Ret tt (set_flag true r) (out (endRun c) r).
Proof.
  destruct (endRun_ends_blank r) as (o & E). rewrite E. unfold out, exec.
  now rewrite E.
Qed.

Lemma recorded_fields e r :
  watching (recorded e r) = watching r /\ columns (recorded e r) = columns r /\
  failFastEnabled (recorded e r) = failFastEnabled r /\
  matching (recorded e r) = matching r /\ prefixTitle (recorded e r) = prefixTitle r /\
  previousFailures (recorded e r) = previousFailures r /\
  removePreviousListener (recorded e r) = removePreviousListener r.
Proof.
  unfold recorded.
  destruct (is_failure e); [repeat split|].
  destruct (String.eqb _ "missing-ava-import"); [repeat split|].
  destruct (String.eqb _ "stats"); [repeat split|].
  destruct (_ && knownFailing e); repeat split.
Qed.

Lemma recorded_lists e r :
  knownFailures (recorded e r) =
    knownFailures r ++ (if String.eqb (type e) "test-passed" && knownFailing e
                        then [e] else []) /\
  filesWithMissingAvaImports (recorded e r) =
    (if String.eqb (type e) "missing-ava-import"
     then set_add (testFile e) (filesWithMissingAvaImports r)
     else filesWithMissingAvaImports r) /\
  stats (recorded e r) =
    (if String.eqb (type e) "stats" then Some (stats_of e) else stats r).
Proof.
  unfold recorded, is_failure. case_type e; rewrite ?app_nil_r; repeat split;
    destruct (knownFailing e); simpl; rewrite ?app_nil_r; reflexivity.
Qed.

Lemma In_set_add x y l : In y (set_add x l) <-> In y l \/ y = x.
Proof.
  unfold set_add. destruct (existsb (String.eqb x) l) eqn:E.
  - apply existsb_exists in E as (z & Hz & Hx). apply String.eqb_eq in Hx. subst z.
    split; [auto|]. intros [H|H]; [exact H|subst; exact Hz].
  - rewrite in_app_iff. simpl. split; intros [H|H]; auto.
    + destruct H as [H|[]]; auto.
Qed.

Lemma NoDup_set_add x l : NoDup l -> NoDup (set_add x l).
Proof.
  intro H. unfold set_add. destruct (existsb (String.eqb x) l) eqn:E; [exact H|].
  apply NoDup_app; [exact H|constructor; [simpl; tauto|constructor]|].
  intros y Hy [Hyx|[]]. subst y.
  assert (existsb (String.eqb x) l = true) by (apply existsb_exists; exists x;
    split; [exact Hy|apply String.eqb_refl]).
  congruence.
Qed.

Lemma set_add_extends x l : exists n, set_add x l = l ++ n.
Proof.
  unfold set_add. destruct (existsb _ l); [exists []; now rewrite app_nil_r|].
  exists [x]. reflexivity.
Qed.

End More.

Definition is_known_pass (e : Event) : bool :=
  String.eqb (type e) "test-passed" && knownFailing e.

Definition is_missing_import (e : Event) : bool :=
  String.eqb (type e) "missing-ava-import".

Definition is_stats (e : Event) : bool := String.eqb (type e) "stats".

(** endRun never throws and changes no field of the reporter but the
    blank-line flag, which it leaves set: the last chunk it writes is a blank
    line.  What it writes does not depend on that flag. *)
Theorem endRun_read_only c r :
  endRun c r = Ret tt (set_flag true r) (out (endRun c) r) /\
  (exists o, out (endRun c) r = o ++ [cat [""; nl]]) /\
  (forall b, out (endRun c) (set_flag b r) = out (endRun c) r).
Proof.
  split; [apply (endRun_ret c)|]. split.
  - destruct (endRun_ends_blank c r) as (o & E). exists o.
    unfold out, exec. now rewrite E.
  - intro b. apply endRun_flag_indep.
Qed.

(** consumeStateChange, including when it throws, never changes the run's
    configuration: watching, the stream's columns, failFastEnabled, matching,
    the title prefixer, previousFailures and the listener handle. *)
Theorem consume_keeps_configuration c e r :
  let r' := after (consumeStateChange c e) r in
  watching r' = watching r /\ columns r' = columns r /\
  failFastEnabled r' = failFastEnabled r /\ matching r' = matching r /\
  prefixTitle r' = prefixTitle r /\ previousFailures r' = previousFailures r /\
  removePreviousListener r' = removePreviousListener r.
Proof.
  cbv zeta. destruct (consume_recorded c e r) as [b Hb]. rewrite Hb.
  destruct (recorded_fields e r) as (H1 & H2 & H3 & H4 & H5 & H6 & H7).
  destruct (recorded e r). simpl in *. repeat split; assumption.
Qed.

(** After a sequence of events (each delivered with one consumeStateChange
    call, whether or not it throws): knownFailures gained the known-failing
    test-passed events, in arrival order and duplicates kept;
    filesWithMissingAvaImports, a Set, still begins with its old entries and
    holds exactly its old files and those of the missing-ava-import events,
    each once if it held each once before; stats is the snapshot of the last
    stats event, or unchanged if there was none. *)
Theorem consume_sequence_records c r evs :
  knownFailures (consumeAll c r evs) = knownFailures r ++ filter is_known_pass evs /\
  (exists added, filesWithMissingAvaImports (consumeAll c r evs) =
                   filesWithMissingAvaImports r ++ added) /\
  (forall f, In f (filesWithMissingAvaImports (consumeAll c r evs)) <->
             In f (filesWithMissingAvaImports r) \/
             In f (map testFile (filter is_missing_import evs))) /\
  (NoDup (filesWithMissingAvaImports r) ->
   NoDup (filesWithMissingAvaImports (consumeAll c r evs))) /\
  stats (consumeAll c r evs) =
    match rev (filter is_stats evs) with
    | [] => stats r
    | e :: _ => Some (stats_of e)
    end.
Proof.
  revert r. induction evs as [|e es IH]; intro r.
  - simpl. rewrite !app_nil_r. repeat split; auto.
    + exists []. now rewrite app_nil_r.
    + intros [H|[]]. exact H.
  - change (consumeAll c r (e :: es)) with (consumeAll c (after (consumeStateChange c e) r) es).
    cbn [filter map].
    destruct (consume_recorded c e r) as [b Hb]. rewrite Hb.
    destruct (IH (set_flag b (recorded e r))) as (H1 & (n & H2) & H3 & H4 & H5).
    change (knownFailures (set_flag b (recorded e r))) with (knownFailures (recorded e r)) in H1.
    change (filesWithMissingAvaImports (set_flag b (recorded e r)))
      with (filesWithMissingAvaImports (recorded e r)) in H2, H3, H4.
    change (stats (set_flag b (recorded e r))) with (stats (recorded e r)) in H5.
    destruct (recorded_lists e r) as (K1 & K2 & K3).
    rewrite K2 in H2, H3, H4. rewrite K3 in H5.
    unfold is_known_pass, is_missing_import, is_stats in *.
    split; [|split; [|split; [|split]]].
    + rewrite H1, K1. destruct (_ && _); simpl; now rewrite <- ?app_assoc.
    + destruct (String.eqb (type e) "missing-ava-import").
      * destruct (set_add_extends (testFile e) (filesWithMissingAvaImports r)) as (m & Hm).
        rewrite Hm in H2. exists (m ++ n). now rewrite H2, app_assoc.
      * exists n. exact H2.
    + intro f. rewrite H3.
      destruct (String.eqb (type e) "missing-ava-import"); simpl; [|tauto].
      rewrite In_set_add. intuition.
    + intro Hnd. apply H4.
      destruct (String.eqb (type e) "missing-ava-import"); [|exact Hnd].
      now apply NoDup_set_add.
    + rewrite H5. destruct (String.eqb (type e) "stats"); simpl;
        [destruct (rev (filter _ es)); reflexivity|reflexivity].
Qed.

Definition repeatedImports : list Event :=
  [ev 20 "missing-ava-import" "a.js" ""; ev 21 "missing-ava-import" "a.js" "";
   ev 22 "missing-ava-import" "b.js" ""].

Lemma consume_sequence_records_witness :
  NoDup (filesWithMissingAvaImports fresh) /\
  NoDup (filesWithMissingAvaImports (consumeAll plain fresh repeatedImports)) /\
  filesWithMissingAvaImports (consumeAll plain fresh repeatedImports) = ["a.js"; "b.js"].
Proof.
  assert (H0 : NoDup (filesWithMissingAvaImports fresh)) by constructor.
  split; [exact H0|]. split.
  - exact (proj1 (proj2 (proj2 (proj2 (consume_sequence_records plain fresh repeatedImports)))) H0).
  - reflexivity.
Defined.

Lemma out_ret_seq (k : M unit) r : out (ret tt ;; k) r = out k r.
Proof. unfold out, exec, bind, ret. destruct (k r); reflexivity. Qed.

Lemma writeLogs_length c e r :
  List.length (out (writeLogs c e) r) = List.length (logs e).
Proof.
  unfold writeLogs. rewrite out_for_each.
  - induction (logs e) as [|x l IH]; simpl; [reflexivity|]. now rewrite IH.
  - intro x. apply writeLine_flag_only.
  - intro x. flag_solve.
Qed.

Lemma writeTestSummary_length c e r :
  List.length (out (writeTestSummary c e) r) = S (List.length (logs e)).
Proof.
  rewrite out_writeTestSummary, length_app, writeLogs_length.
  destruct (_ || _); [reflexivity|]. destruct (knownFailing e); reflexivity.
Qed.

Lemma existsb_in (f : string) l :
  In f l -> existsb (String.eqb f) l = true.
Proof.
  intro H. apply existsb_exists. exists f. split; [exact H|]. apply String.eqb_refl.
Qed.

(** A worker-failed or worker-finished event for a file already reported
    by missing-ava-import writes nothing, changes nothing and does not
    throw, even before any stats event. *)
Theorem missing_import_silences_worker c e r :
  In (testFile e) (filesWithMissingAvaImports r) ->
  type e = "worker-failed" \/ type e = "worker-finished" ->
  consumeStateChange c e r = Ret tt r [].
Proof.
  intros Hin Ht. pose proof (existsb_in _ _ Hin) as Hex.
  unfold consumeStateChange. rewrite bind_get_eq. cbv zeta.
  destruct Ht as [Ht|Ht]; rewrite Ht; simpl; rewrite Hex;
    [reflexivity | rewrite andb_false_r; reflexivity].
Qed.

(** A worker-finished event marked forcedExit writes nothing, changes
    nothing and does not throw. *)
Theorem forced_exit_worker_finished_silent c e r :
  type e = "worker-finished" -> forcedExit e = true ->
  consumeStateChange c e r = Ret tt r [].
Proof.
  intros Ht Hf. unfold consumeStateChange. rewrite bind_get_eq. cbv zeta.
  rewrite Ht. simpl. rewrite Hf. reflexivity.
Qed.

(** With fail-fast enabled, a worker-finished event never reports remaining
    tests: it writes nothing or the single "No tests found in <file>" line. *)
Theorem worker_finished_fail_fast_no_remaining c e r :
  type e = "worker-finished" -> failFastEnabled r = true ->
  out (consumeStateChange c e) r = [] \/
  out (consumeStateChange c e) r =
    [cat [c_error c (cat ["  "; c_cross c; " No tests found in "; c_relative c (testFile e)]); nl]].
Proof.
  intros Ht Hf. unfold out, exec, consumeStateChange. rewrite bind_get_eq. cbv zeta.
  rewrite Ht. simpl. rewrite Hf.
  destruct (negb (forcedExit e) && _); [|left; reflexivity].
  destruct (fileStatsOf r e) as [fs|]; [|left; reflexivity].
  destruct (N.eqb (fs_declaredTests fs) 0); [right|left]; reflexivity.
Qed.

(** worker-stdout and worker-stderr chunks are written verbatim, as one
    chunk with no newline added, and nothing of the reporter changes, not
    even the blank-line flag. *)
Theorem worker_output_verbatim c e r :
  type e = "worker-stdout" \/ type e = "worker-stderr" ->
  consumeStateChange c e r = Ret tt r [chunk e].
Proof.
  intro Ht. unfold consumeStateChange. rewrite bind_get_eq.
  destruct Ht as [Ht|Ht]; rewrite Ht; reflexivity.
Qed.

(** A test-passed, test-failed or hook-failed event never throws and writes
    exactly one line for the test plus one line per log entry. *)
Theorem summary_event_line_count c e r :
  type e = "test-passed" \/ type e = "test-failed" \/ type e = "hook-failed" ->
  throws (consumeStateChange c e) r = false /\
  List.length (out (consumeStateChange c e) r) = S (List.length (logs e)).
Proof.
  intro Ht. split.
  - rewrite consume_throws. destruct Ht as [Ht|[Ht|Ht]]; rewrite Ht; reflexivity.
  - unfold consumeStateChange. rewrite out_get. cbv zeta.
    destruct Ht as [Ht|[Ht|Ht]]; rewrite Ht; simpl.
    + destruct (knownFailing e);
        [rewrite out_modify | rewrite out_ret_seq]; apply writeTestSummary_length.
    + rewrite out_modify. apply writeTestSummary_length.
    + rewrite out_modify. apply writeTestSummary_length.
Qed.

(** When the run matched titles and the stats snapshot has no selected
    tests, endRun writes only the "Couldn't find any matching tests" line and
    a blank line: no counts, known failures, failure blocks or fail-fast
    disclaimer, whatever was recorded. *)
Theorem endRun_no_matching_tests c r s :
  stats r = Some s -> matching r = true -> selectedTests s = 0 ->
  endRun c r =
    Ret tt (set_flag true r)
      [cat [c_error c (cat ["  "; c_cross c; " Couldn't find any matching tests"]); nl];
       cat [""; nl]].
Proof.
  intros Hs Hm Hz. unfold endRun. rewrite bind_get_eq, Hs, Hm, Hz. simpl.
  unfold writeLine, bind, write, modify. simpl. rewrite set_flag_twice.
  reflexivity.
Qed.

Lemma nat_sub_0 (n : nat) : (n - 0)%nat = n.
Proof. destruct n; reflexivity. Qed.

Lemma substring_whole (y : string) : substring 0 (String.length y) y = y.
Proof. induction y as [|a y IH]; simpl; [reflexivity|]. now rewrite IH. Qed.

Lemma first_line_indented (l t : string) rest :
  blank_line l = false ->
  String.concat "" (indent_line 6 (l, t) :: rest) =
  String.append "      " (cat [l; t; String.concat "" rest]).
Proof.
  intro Hb. unfold indent_line. rewrite Hb.
  destruct rest as [|x rest]; cbn [String.concat cat];
    rewrite ?str_app_nil, ?str_app_assoc; reflexivity.
Qed.

(** writeLogs writes one line per log entry, in order.  For an entry whose
    coloured text has a non-blank first line, the six-space indent of that
    first line becomes four spaces, the info figure and a space (the
    pattern /^ {6}/ has no m flag); the rest of the entry, from the first
    line's terminator on, is as indent-string left it. *)
Theorem writeLogs_lines c e r :
  out (writeLogs c e) r =
    map (fun log => cat [replaceLeadingIndent c (indentString (c_log c log) 6); nl])
        (logs e) /\
  (forall s l t ls, lines_of s = (l, t) :: ls -> blank_line l = false ->
     replaceLeadingIndent c (indentString s 6) =
       cat ["    "; c_information c (c_info c); " ";
            cat [l; t; String.concat "" (map (indent_line 6) ls)]]).
Proof.
  split.
  - unfold writeLogs. rewrite out_for_each.
    + induction (logs e) as [|x lg IH]; simpl; [reflexivity|]. now rewrite IH.
    + intro x. apply writeLine_flag_only.
    + intro x. flag_solve.
  - intros s l t ls Hs Hb. unfold indentString. rewrite Hs. cbn [map].
    rewrite (first_line_indented l t _ Hb).
    set (y := cat [l; t; _]).
    unfold replaceLeadingIndent. simpl. rewrite nat_sub_0, substring_whole.
    replace (String.prefix "" y) with true by (destruct y; reflexivity).
    reflexivity.
Qed.

Definition no_startRun (a : Action) : Prop :=
  match a with StartRun _ => False | _ => True end.

Lemma run_keeps_subs c w acts :
  Forall no_startRun acts -> subs (fst (run c w acts)) = subs w.
Proof.
  revert w. induction acts as [|a acts IH]; intros w H; [reflexivity|].
  inversion H as [|a' acts' Ha Hr]; subst. simpl.
  assert (Hs : subs (fst (step c w a)) = subs w).
  { destruct a as [plan| e evt|]; simpl in *; [contradiction| |].
    - unfold emit. destruct (fold_left _ _ _). reflexivity.
    - destruct (exec (endRun c) (rep w)). reflexivity. }
  destruct (step c w a) as [w1 o1]. simpl in Hs.
  specialize (IH w1 Hr). destruct (run c w1 acts) as [w2 o2]. simpl in *.
  congruence.
Qed.

(** Once startRun(plan) has run, and until the next startRun, an event
    emitted on plan.status is consumed exactly once and an event emitted on
    any other emitter (such as an earlier run's status) is ignored: no
    output and no change. *)
Theorem events_reach_only_current_run c ww cols acts1 plan acts2 e evt :
  Forall no_startRun acts2 ->
  let w := fst (run c (construct ww cols) (acts1 ++ StartRun plan :: acts2)) in
  emit c w e evt =
    if N.eqb e (p_status plan)
    then (mkWorld (after (consumeStateChange c evt) (rep w)) (subs w),
          out (consumeStateChange c evt) (rep w))
    else (w, []).
Proof.
  intro H. cbv zeta.
  set (w := fst (run c (construct ww cols) (acts1 ++ StartRun plan :: acts2))).
  assert (Hw : subs w = [p_status plan]).
  { unfold w. rewrite run_app.
    pose proof (run_inv c ww cols (construct ww cols) acts1 (construct_inv ww cols)) as Hi.
    destruct (run c (construct ww cols) acts1) as [w1 o1]. simpl in Hi.
    cbn [run step].
    pose proof (startRun_world c ww cols w1 plan Hi) as Hst.
    destruct (startRun c w1 plan) as [w2 o2]. simpl in Hst.
    pose proof (run_keeps_subs c w2 acts2 H) as Hk.
    destruct (run c w2 acts2) as [w3 o3]. simpl in *. rewrite Hk, Hst. reflexivity. }
  clearbody w. destruct w as [r sb]. simpl in Hw. subst sb.
  unfold emit, after, out. simpl. rewrite N.eqb_sym.
  destruct (N.eqb e (p_status plan)); [|reflexivity].
  destruct (exec (consumeStateChange c evt) r). reflexivity.
Qed.

(** Until the first startRun, no listener is registered: an event emitted
    on any emitter reaches nobody, whatever endRun calls came before. *)
Theorem events_before_startRun_ignored c ww cols acts e evt :
  Forall no_startRun acts ->
  let w := fst (run c (construct ww cols) acts) in
  emit c w e evt = (w, []).
Proof.
  intro H. cbv zeta. pose proof (run_keeps_subs c (construct ww cols) acts H) as Hs.
  destruct (fst (run c (construct ww cols) acts)) as [r sb]. simpl in Hs. subst sb.
  reflexivity.
Qed.

(** Whatever came before, startRun(plan) writes a horizontal rule only in
    watch mode from the second run on (plan.runVector > 1), as wide as the
    stream's columns or 80 when those are unknown or 0, and then one blank
    line; it leaves the blank-line flag set. *)
Theorem startRun_output c ww cols acts plan :
  let w := fst (run c (construct ww cols) acts) in
  snd (startRun c w plan) =
    (if ww && N.ltb 1 (p_runVector plan) then
       [cat [c_grayDim c (c_rule c (match cols with
                                    | Some n => if N.eqb n 0 then 80 else n
                                    | None => 80 end)); nl]]
     else []) ++ [cat [""; nl]] /\
  lastLineIsEmpty (rep (fst (startRun c w plan))) = true.
Proof.
  cbv zeta.
  pose proof (run_inv c ww cols (construct ww cols) acts (construct_inv ww cols)) as Hi.
  split.
  - apply (startRun_out c ww cols _ plan Hi).
  - rewrite (startRun_world c ww cols _ plan Hi). reflexivity.
Qed.

(** ** Witnesses of the further properties *)

Definition missingFile : Event := ev 20 "missing-ava-import" "a.js" "".
Definition afterMissing : Reporter := after (consumeStateChange plain missingFile) fresh.
Definition finishedA : Event := ev 21 "worker-finished" "a.js" "".

Lemma missing_import_silences_worker_witness :
  In (testFile finishedA) (filesWithMissingAvaImports afterMissing) /\
  (type finishedA = "worker-failed" \/ type finishedA = "worker-finished") /\
  consumeStateChange plain finishedA afterMissing = Ret tt afterMissing [].
Proof.
  assert (Hin : In (testFile finishedA) (filesWithMissingAvaImports afterMissing))
    by (vm_compute; left; reflexivity).
  split; [exact Hin|]. split; [right; reflexivity|].
  apply (missing_import_silences_worker plain finishedA afterMissing Hin).
  right. reflexivity.
Defined.

Definition forcedFinish : Event :=
  mkEvent 22 "worker-finished" "a.js" "" noErr [] false 0 false false zeroStats 0 0 "" true "".

Lemma forced_exit_worker_finished_silent_witness :
  type forcedFinish = "worker-finished" /\ forcedExit forcedFinish = true /\
  consumeStateChange plain forcedFinish fresh = Ret tt fresh [].
Proof.
  split; [reflexivity|]. split; [reflexivity|].
  apply (forced_exit_worker_finished_silent plain forcedFinish fresh); reflexivity.
Defined.

Definition emptyFileStats : Stats :=
  mkStats 0 0 0 0 0 0 0 0 0 0 1 1 0 [("b.js", mkFileStats 0 0)].

Definition failFastReporter : Reporter :=
  mkReporter false None true [] [] [] false false None 0 None (Some emptyFileStats).

Definition finishedB : Event := ev 23 "worker-finished" "b.js" "".

Lemma worker_finished_fail_fast_no_remaining_witness :
  type finishedB = "worker-finished" /\ failFastEnabled failFastReporter = true /\
  (out (consumeStateChange plain finishedB) failFastReporter = [] \/
   out (consumeStateChange plain finishedB) failFastReporter =
     [cat [c_error plain (cat ["  "; c_cross plain; " No tests found in ";
                               c_relative plain (testFile finishedB)]); nl]]).
Proof.
  split; [reflexivity|]. split; [reflexivity|].
  apply (worker_finished_fail_fast_no_remaining plain finishedB failFastReporter);
    reflexivity.
Defined.

Definition stdoutEvent : Event :=
  mkEvent 24 "worker-stdout" "a.js" "" noErr [] false 0 false false zeroStats 0 0 ""
    false "partial output".

Lemma worker_output_verbatim_witness :
  (type stdoutEvent = "worker-stdout" \/ type stdoutEvent = "worker-stderr") /\
  consumeStateChange plain stdoutEvent fresh = Ret tt fresh [chunk stdoutEvent].
Proof.
  split; [left; reflexivity|].
  apply (worker_output_verbatim plain stdoutEvent fresh). left. reflexivity.
Defined.

Definition failedWithLogs : Event :=
  mkEvent 25 "test-failed" "t.js" "x" (mkE "m" "s") ["first"; "second"] false 0 false false
    zeroStats 0 0 "" false "".

Lemma summary_event_line_count_witness :
  (type failedWithLogs = "test-passed" \/ type failedWithLogs = "test-failed" \/
   type failedWithLogs = "hook-failed") /\
  throws (consumeStateChange plain failedWithLogs) fresh = false /\
  List.length (out (consumeStateChange plain failedWithLogs) fresh) =
    S (List.length (logs failedWithLogs)).
Proof.
  assert (Ht : type failedWithLogs = "test-passed" \/ type failedWithLogs = "test-failed" \/
               type failedWithLogs = "hook-failed") by (right; left; reflexivity).
  split; [exact Ht|].
  exact (summary_event_line_count plain failedWithLogs fresh Ht).
Defined.

Definition matchingRun : Reporter :=
  mkReporter false None true [failedWithLogs] [] [] false true None 2 None (Some zeroStats).

Lemma endRun_no_matching_tests_witness :
  stats matchingRun = Some zeroStats /\ matching matchingRun = true /\
  selectedTests zeroStats = 0 /\
  endRun plain matchingRun =
    Ret tt (set_flag true matchingRun)
      [cat [c_error plain (cat ["  "; c_cross plain; " Couldn't find any matching tests"]); nl];
       cat [""; nl]].
Proof.
  split; [reflexivity|]. split; [reflexivity|]. split; [reflexivity|].
  apply (endRun_no_matching_tests plain matchingRun zeroStats); reflexivity.
Defined.

Definition cr : string := String (ascii_of_nat 13) EmptyString.

Definition twoLineLog : string := cat ["line one"; cr; "line two"].

Lemma writeLogs_lines_witness :
  lines_of twoLineLog = [("line one", cr); ("line two", "")] /\
  blank_line "line one" = false /\
  replaceLeadingIndent plain (indentString twoLineLog 6) =
    cat ["    "; c_information plain (c_info plain); " ";
         cat ["line one"; cr; String.concat "" (map (indent_line 6) [("line two", "")])]].
Proof.
  assert (H1 : lines_of twoLineLog = [("line one", cr); ("line two", "")]) by reflexivity.
  assert (H2 : blank_line "line one" = false) by reflexivity.
  split; [exact H1|]. split; [exact H2|].
  exact (proj2 (writeLogs_lines plain failedWithLogs fresh) twoLineLog _ _ _ H1 H2).
Defined.

Definition planA : Plan := mkPlan ["a.js"] false false 0 "" 1 3.
Definition planB : Plan := mkPlan ["a.js"] false false 0 "" 2 7.

Lemma events_reach_only_current_run_witness :
  Forall no_startRun [Emit 7 failedWithLogs; EndRun] /\
  (let w := fst (run plain (construct true None)
                   ([StartRun planA] ++ StartRun planB :: [Emit 7 failedWithLogs; EndRun])) in
   emit plain w 3 failedWithLogs =
     if N.eqb 3 (p_status planB)
     then (mkWorld (after (consumeStateChange plain failedWithLogs) (rep w)) (subs w),
           out (consumeStateChange plain failedWithLogs) (rep w))
     else (w, [])).
Proof.
  assert (H : Forall no_startRun [Emit 7 failedWithLogs; EndRun])
    by (repeat constructor).
  split; [exact H|].
  exact (events_reach_only_current_run plain true None [StartRun planA] planB
           [Emit 7 failedWithLogs; EndRun] 3 failedWithLogs H).
Defined.

Lemma events_before_startRun_ignored_witness :
  Forall no_startRun [EndRun; Emit 3 failedWithLogs] /\
  (let w := fst (run plain (construct false None) [EndRun; Emit 3 failedWithLogs]) in
   emit plain w 3 failedWithLogs = (w, [])).
Proof.
  assert (H : Forall no_startRun [EndRun; Emit 3 failedWithLogs])
    by (repeat constructor).
  split; [exact H|].
  exact (events_before_startRun_ignored plain false None _ 3 failedWithLogs H).
Defined.
